(** * Campus navigation prototype (prototype.py): model and properties

    The program is one Streamlit script.  It holds a fixed table of five
    campus locations (a pandas DataFrame), filters it by type, searches it
    by name, picks the location to highlight, builds a folium map and lists
    the geodesic distances from the selected location to the others.

    The script defines [main] but its module level never calls it; the
    properties below are about the functions and the blocks of [main], as
    they run when called.

    Modelling decisions:
    - a DataFrame is the list of its rows, in index order; a boolean-mask
      selection is [filter], [iterrows] is list traversal, [.iloc[0]] is the
      head of the list (IndexError on an empty frame);
    - a Python float is the rational number its decimal literal denotes
      (binary64 rounding is not modelled);
    - a Python [str] is an ASCII [string]; [str.lower] maps A-Z to a-z;
    - exceptions are values of [Py.exn], carried by the result type [Py.res];
    - the third-party libraries are modelled only as far as the script
      depends on them: pandas' [str.contains] compiles its pattern with
      [re]; geopy's [Point] validates coordinates; the length of the
      geodesic itself (geographiclib, binary64) is a parameter. *)

From Stdlib Require Import QArith Qround Qabs DecimalString Ascii Lqa.
From stdpp Require Import base list strings.

Local Open Scope string_scope.

(** ** Python values, exceptions and truthiness *)

Module Py.

Inductive exn : Type :=
| NameError (name : string)
| IndexError
| ValueError (msg : string)
| ReError (msg : string).

Inductive res (A : Type) : Type :=
| Ok (a : A)
| Raise (e : exn).
Arguments Ok {A} a.
Arguments Raise {A} e.

Definition bind {A B : Type} (r : res A) (k : A -> res B) : res B :=
  match r with
  | Ok a => k a
  | Raise e => Raise e
  end.

Definition raises {A : Type} (r : res A) : bool :=
  match r with
  | Ok _ => false
  | Raise _ => true
  end.

(** [bool(s)] for a [str]: false exactly for the empty string. *)
Definition truthy (s : string) : bool :=
  match s with
  | EmptyString => false
  | String _ _ => true
  end.

(** [bool(x)] for an [Optional[str]]: [None] is falsy. *)
Definition truthy_opt (x : option string) : bool :=
  match x with
  | None => false
  | Some s => truthy s
  end.

Definition is_upper (c : ascii) : bool :=
  let n := nat_of_ascii c in
  (Nat.leb 65 n && Nat.leb n 90)%bool.

Definition lower_char (c : ascii) : ascii :=
  if is_upper c then ascii_of_nat (nat_of_ascii c + 32) else c.

(** [s.lower()] *)
Fixpoint lower (s : string) : string :=
  match s with
  | EmptyString => EmptyString
  | String c s' => String (lower_char c) (lower s')
  end.

(** [x < y] on floats. *)
Definition Qlt_bool (x y : Q) : bool := negb (Qle_bool y x).

(** [sub in s] for two [str]: plain substring test. *)
Fixpoint starts_with (p s : string) : bool :=
  match p, s with
  | EmptyString, _ => true
  | String _ _, EmptyString => false
  | String a p', String b s' => (Ascii.eqb a b && starts_with p' s')%bool
  end.

Fixpoint contains (p s : string) : bool :=
  (starts_with p s ||
   match s with
   | EmptyString => false
   | String _ s' => contains p s'
   end)%bool.

End Py.

#[export] Instance res_ret : MRet Py.res := fun A a => Py.Ok a.
#[export] Instance res_bind : MBind Py.res := fun A B k r => Py.bind r k.

(** ** The fragment of Python's [re] that is modelled

    A pattern made of ordinary characters and [.] is compiled here, and a
    pattern that begins with [*], [+] or [?] is rejected; for any other
    pattern the outcome of [re.compile] (a matcher or [re.error]) is left
    to the parameter of [compile]. *)

Module Re.

Inductive atom : Type :=
| Lit (c : ascii)
| Dot.

Definition metachars : list ascii :=
  String.list_ascii_of_string ".^$*+?{}[]\|()".

Definition is_meta (c : ascii) : bool :=
  existsb (Ascii.eqb c) metachars.

Fixpoint parse (pat : string) : option (list atom) :=
  match pat with
  | EmptyString => Some []
  | String c rest =>
      if Ascii.eqb c "." then cons Dot <$> parse rest
      else if is_meta c then None
      else cons (Lit c) <$> parse rest
  end.

(** Without [re.DOTALL] the dot matches any character but a newline. *)
Definition atom_matches (a : atom) (c : ascii) : bool :=
  match a with
  | Lit x => Ascii.eqb x c
  | Dot => negb (Ascii.eqb c "010")
  end.

Fixpoint match_here (r : list atom) (s : string) : bool :=
  match r, s with
  | [], _ => true
  | _ :: _, EmptyString => false
  | a :: r', String c s' => (atom_matches a c && match_here r' s')%bool
  end.

(** [regex.search(s) is not None] *)
Fixpoint search (r : list atom) (s : string) : bool :=
  (match_here r s ||
   match s with
   | EmptyString => false
   | String _ s' => search r s'
   end)%bool.

(** A pattern that begins with a repetition operator has nothing to
    repeat: [re.compile] raises [re.error]. *)
Definition leading_quantifier (pat : string) : bool :=
  match pat with
  | String c _ => existsb (Ascii.eqb c) (String.list_ascii_of_string "*+?")
  | EmptyString => false
  end.

(** [re.compile(pat)], as the predicate [lambda x: regex.search(x) is not None]. *)
Definition compile (other : string -> Py.res (string -> bool)) (pat : string)
  : Py.res (string -> bool) :=
  if leading_quantifier pat then
    Py.Raise (Py.ReError "nothing to repeat at position 0")
  else
    match parse pat with
    | Some r => Py.Ok (search r)
    | None => other pat
    end.

End Re.

(** ** geopy: coordinate validation and the geodesic distance

    [geodesic(a, b)] first turns both arguments into [Point]s.  As in
    geopy 2.x, [Point] rejects a latitude outside [-90, 90] with a
    [ValueError] and wraps a longitude outside [-180, 180] back into
    that range.  The length of the WGS-84 geodesic between two points, as
    computed by geographiclib, is the parameter [Inverse] (in metres). *)

Module Geopy.

Definition coords : Type := (Q * Q)%type.

Definition Qtrunc (x : Q) : Z :=
  if Qle_bool 0 x then Qfloor x else Qceiling x.

(** [math.fmod(x, m)]: the remainder has the sign of [x]. *)
Definition fmod (x m : Q) : Q :=
  (x - m * inject_Z (Qtrunc (x / m)))%Q.

Definition normalize_angle (x limit : Q) : Q :=
  let double_limit := (limit * 2)%Q in
  let modulo := fmod x double_limit in
  if Py.Qlt_bool modulo (- limit) then (modulo + double_limit)%Q
  else if Qle_bool limit modulo then (modulo - double_limit)%Q
  else modulo.

Definition Point (c : coords) : Py.res coords :=
  let '(latitude, longitude) := c in
  if Py.Qlt_bool 90 (Qabs latitude) then
    Py.Raise (Py.ValueError "Latitude must be in the [-90; 90] range.")
  else if Py.Qlt_bool 180 (Qabs longitude) then
    Py.Ok (latitude, normalize_angle longitude 180)
  else Py.Ok (latitude, longitude).

(** [geodesic(a, b).meters] *)
Definition geodesic_meters (Inverse : coords -> coords -> Q) (a b : coords)
  : Py.res Q :=
  pa ← Point a;
  pb ← Point b;
  mret (Inverse pa pb).

End Geopy.

(** ** folium: a map is its constructor arguments and the elements added to it *)

Module Folium.

(** The popup's HTML is kept as the four values it interpolates. *)
Record Popup : Type := {
  popup_name : string;
  popup_type : string;
  popup_lat : Q;
  popup_lon : Q
}.

Inductive Icon : Type :=
| DivIcon (html : string).

Inductive Element : Type :=
| Rectangle (bounds : (Q * Q) * (Q * Q)) (color : string) (fill : bool)
            (fillColor : string) (fillOpacity : Q) (weight : Z)
| Marker (location : Q * Q) (popup : Popup) (tooltip : string)
         (icon : option Icon)
| Circle (location : Q * Q) (radius : Z) (color : string) (fill : bool)
         (fillColor : string) (fillOpacity : Q) (weight : Z)
| Draw (export : bool) (position : string) (draw_options : list (string * bool))
| Locate.

Record Map : Type := {
  location : Q * Q;
  zoom_start : Z;
  tiles : string;
  children : list Element
}.

(** [element.add_to(m)] appends to the map's children. *)
Definition add_to (e : Element) (m : Map) : Map :=
  {| location := location m;
     zoom_start := zoom_start m;
     tiles := tiles m;
     children := children m ++ [e] |}.

End Folium.

(** ** The location table (lines 16-28) *)

Record Location : Type := {
  name : string;
  latitude : Q;
  longitude : Q;
  type : string;
  radius : Z
}.

Definition locations : list Location := [
  {| name := "Main Gate"; latitude := -0.3918; longitude := 36.9630;
     type := "Entry"; radius := 50 |};
  {| name := "Library"; latitude := -0.3925; longitude := 36.9635;
     type := "Academic"; radius := 70 |};
  {| name := "Administration Block"; latitude := -0.3920; longitude := 36.9638;
     type := "Administrative"; radius := 60 |};
  {| name := "Engineering Block"; latitude := -0.3928; longitude := 36.9632;
     type := "Academic"; radius := 80 |};
  {| name := "Student Center"; latitude := -0.3922; longitude := 36.9640;
     type := "Services"; radius := 65 |}
].

Definition row_coords (row : Location) : Geopy.coords :=
  (latitude row, longitude row).

(** [frame.iloc[0]] *)
Definition iloc0 (frame : list Location) : Py.res Location :=
  match frame with
  | [] => Py.Raise Py.IndexError
  | row :: _ => Py.Ok row
  end.

(** [frame[frame['name'] == n]] *)
Definition rows_named (locs : list Location) (n : string) : list Location :=
  List.filter (fun row => String.eqb (name row) n) locs.

(** [locations['type'].unique()]: distinct values, in order of first appearance. *)
Fixpoint unique (l : list string) : list string :=
  match l with
  | [] => []
  | x :: l' => x :: List.filter (fun y => negb (String.eqb y x)) (unique l')
  end.

(** ** Module-level names

    The names bound when the script has been loaded: its imports
    (lines 1-6), [locations] and the three functions.  A global name that
    is read without being bound (nor being a builtin) raises [NameError]. *)

Definition module_globals : list string :=
  ["st"; "folium"; "folium_static"; "pd"; "geodesic"; "Draw";
   "locate_control"; "locations"; "create_dark_overlay"; "create_map"; "main"].

Definition is_bound (bound : list string) (n : string) : bool :=
  existsb (String.eqb n) bound.

(** ** [create_map] (lines 30-132)

    The function builds the map by side effects on [m].  [Built m] is a
    normal completion with the map as it stands; [Aborted e m] is the
    exception [e] leaving the function, [m] being the map as it stood at
    that point (it is lost to the caller). *)

Inductive outcome : Type :=
| Built (m : Folium.Map)
| Aborted (e : Py.exn) (m : Folium.Map).

Definition and_then (o : outcome) (k : Folium.Map -> outcome) : outcome :=
  match o with
  | Built m => k m
  | Aborted e m => Aborted e m
  end.

(** Reads of global names, in evaluation order, before a statement runs. *)
Fixpoint reading (bound names : list string) (m : Folium.Map)
    (k : Folium.Map -> outcome) : outcome :=
  match names with
  | [] => k m
  | n :: rest =>
      if is_bound bound n then reading bound rest m k
      else Aborted (Py.NameError n) m
  end.

Definition returned (o : outcome) : Py.res Folium.Map :=
  match o with
  | Built m => Py.Ok m
  | Aborted e _ => Py.Raise e
  end.

Definition overlay_bounds : (Q * Q) * (Q * Q) :=
  ((-0.3950, 36.9600), (-0.3900, 36.9700))%Q.

Definition dark_overlay : Folium.Element :=
  Folium.Rectangle overlay_bounds "#000000" true "#000000" 0.5%Q 0%Z.

(** Lines 30-40. *)
Definition create_dark_overlay (bound : list string) (map_obj : Folium.Map)
  : outcome :=
  reading bound ["folium"] map_obj (fun m =>
  Built (Folium.add_to dark_overlay m)).

Definition row_popup (row : Location) : Folium.Popup :=
  {| Folium.popup_name := name row;
     Folium.popup_type := type row;
     Folium.popup_lat := latitude row;
     Folium.popup_lon := longitude row |}.

(** Abbreviates the HTML literal of lines 84-101 (a 20px gold disc with
    the [pulse] animation). *)
Definition icon_html : string :=
  "<div style='background-color: #FFD700; animation: pulse 2s infinite;'></div>".

Definition plain_marker (row : Location) : Folium.Element :=
  Folium.Marker (row_coords row) (row_popup row) (name row) None.

Definition highlight_circle (row : Location) : Folium.Element :=
  Folium.Circle (row_coords row) (radius row) "#FFD700" true "#FFD700" 0.3%Q 2%Z.

Definition glowing_marker (row : Location) : Folium.Element :=
  Folium.Marker (row_coords row) (row_popup row) (name row)
    (Some (Folium.DivIcon icon_html)).

(** Line 56: [highlight_name and row['name'] == highlight_name]. *)
Definition is_highlighted (highlight_name : option string) (row : Location)
  : bool :=
  match highlight_name with
  | None => false
  | Some h => (Py.truthy h && String.eqb (name row) h)%bool
  end.

(** One iteration of the loop of lines 55-114. *)
Definition add_location (bound : list string) (highlight_name : option string)
    (row : Location) (m : Folium.Map) : outcome :=
  reading bound ["folium"] m (fun m =>
  if is_highlighted highlight_name row then
    reading bound ["folium"] m (fun m =>
    let m := Folium.add_to (highlight_circle row) m in
    reading bound ["folium"; "DivIcon"] m (fun m =>
    Built (Folium.add_to (glowing_marker row) m)))
  else
    Built (Folium.add_to (plain_marker row) m)).

Fixpoint add_locations (bound : list string) (highlight_name : option string)
    (rows : list Location) (m : Folium.Map) : outcome :=
  match rows with
  | [] => Built m
  | row :: rest =>
      and_then (add_location bound highlight_name row m)
               (add_locations bound highlight_name rest)
  end.

Definition draw_control : Folium.Element :=
  Folium.Draw false "topleft"
    [("polyline", true); ("marker", true); ("circle", true);
     ("rectangle", false); ("polygon", false); ("circlemarker", false)].

(** The arguments of a call of [create_map]. *)
Record MapArgs : Type := {
  center_lat : Q;
  center_lon : Q;
  zoom : Z;
  highlight_name : option string
}.

(** [create_map()] with every parameter at its default (line 42). *)
Definition default_args : MapArgs :=
  {| center_lat := -0.3923; center_lon := 36.9634; zoom := 17%Z;
     highlight_name := None |}.

(** The body of [create_map], run with the global names [bound] and the
    table [locs]. *)
Definition create_map_with (bound : list string) (locs : list Location)
    (a : MapArgs) : outcome :=
  let m := {| Folium.location := (center_lat a, center_lon a);
              Folium.zoom_start := zoom a;
              Folium.tiles := "OpenStreetMap";
              Folium.children := [] |} in
  reading bound ["folium"] m (fun m =>
  and_then
    (if Py.truthy_opt (highlight_name a)
     then reading bound ["create_dark_overlay"] m (create_dark_overlay bound)
     else Built m) (fun m =>
  reading bound ["locations"] m (fun m =>
  and_then (add_locations bound (highlight_name a) locs m) (fun m =>
  reading bound ["Draw"] m (fun m =>
  let m := Folium.add_to draw_control m in
  reading bound ["Locate"] m (fun m =>
  Built (Folium.add_to Folium.Locate m))))))).

(** [create_map] as the script runs it. *)
Definition create_map (locs : list Location) (a : MapArgs) : Py.res Folium.Map :=
  returned (create_map_with module_globals locs a).

(** ** The queries of [main] over the table

    The table is an argument ([locs]) so that the queries can also be run
    on other directories; the script runs them on [locations]. *)

(** Line 157: the options of the type selector. *)
Definition type_options (locs : list Location) : list string :=
  "All" :: unique (map type locs).

(** Lines 162-165: the rows offered in the location selector (the
    directory filtered by type; the specification's [byType]). *)
Definition filtered_locations (locs : list Location) (selected_type : string)
  : list Location :=
  if negb (String.eqb selected_type "All") then
    List.filter (fun row => String.eqb (type row) selected_type) locs
  else locs.

(** Lines 167-170: the names offered in the location selector. *)
Definition location_options (locs : list Location) (selected_type : string)
  : list string :=
  map name (filtered_locations locs selected_type).

(** Line 229: [f"{distance:.0f}"] rounds half to even. *)
Definition round_half_even (x : Q) : Z :=
  let f := Qfloor x in
  match Qcompare (x - inject_Z f) (1 # 2) with
  | Lt => f
  | Gt => (f + 1)%Z
  | Eq => if Z.even f then f else (f + 1)%Z
  end.

Definition format_0f (x : Q) : string :=
  let n := round_half_even x in
  if (Z.eqb n 0 && Py.Qlt_bool x 0)%bool then "-0"
  else NilZero.string_of_int (Z.to_int n).

(** A row of [distance_df] (lines 227-230). *)
Record DistanceRow : Type := {
  location : string;
  distance : string
}.

Section Script.

(** [re.compile] on the patterns outside the modelled fragment. *)
Variable re_other : string -> Py.res (string -> bool).

(** The geodesic length in metres (geographiclib on WGS-84). *)
Variable Inverse : Geopy.coords -> Geopy.coords -> Q.

(** Lines 177-179: [locations[locations['name'].str.lower()
    .str.contains(search_term.lower())]]; [str.contains] takes its
    argument as a regular expression. *)
Definition found_locations (locs : list Location) (search_term : string)
  : Py.res (list Location) :=
  matches ← Re.compile re_other (Py.lower search_term);
  mret (List.filter (fun row => matches (Py.lower (name row))) locs).

(** Lines 176-179: the search of the table (the specification's
    [search]).  It is made only under [if search_term:]: for a non-empty
    term the outcome is that of [found_locations]; for the empty term the
    table is not searched and there is no result ([None]). *)
Definition search (locs : list Location) (search_term : string)
  : option (Py.res (list Location)) :=
  if Py.truthy search_term then Some (found_locations locs search_term)
  else None.

(** Lines 223-226: the loop computing the distance to each row whose
    name differs from the selected one. *)
Fixpoint measure (selected_location : string) (selected_coords : Geopy.coords)
    (rows : list Location) : Py.res (list (Location * Q)) :=
  match rows with
  | [] => mret []
  | row :: rest =>
      if negb (String.eqb (name row) selected_location) then
        d ← Geopy.geodesic_meters Inverse selected_coords (row_coords row);
        more ← measure selected_location selected_coords rest;
        mret ((row, d) :: more)
      else measure selected_location selected_coords rest
  end.

(** Lines 213-226 (the specification's [distancesFrom]): the selected row
    is looked up by name, then every other row is measured from it. *)
Definition distancesFrom (locs : list Location) (selected_location : string)
  : Py.res (list (Location * Q)) :=
  loc ← iloc0 (rows_named locs selected_location);
  measure selected_location (row_coords loc) locs.

(** Lines 227-232: the rows of [distance_df]. *)
Definition distance_rows (ds : list (Location * Q)) : list DistanceRow :=
  map (fun '(row, d) =>
         {| location := name row;
            distance := format_0f d ++ " meters" |}) ds.

End Script.

(** ** The running script: the store and [main]

    The store holds the two objects the script shares across calls: the
    module-level table [locations] (a mutable DataFrame) and Streamlit's
    session state, of which the script uses the key
    [highlighted_location] (set up by lines 139-140). *)

Record SessionState : Type := {
  highlighted_location : option string
}.

Record World : Type := {
  w_locations : list Location;
  w_session : SessionState
}.

Definition Prog (A : Type) : Type := World -> Py.res A * World.

Definition prog_ret {A : Type} (a : A) : Prog A := fun w => (Py.Ok a, w).

(** A raised exception ends the program; the writes made before it stay. *)
Definition prog_bind {A B : Type} (p : Prog A) (k : A -> Prog B) : Prog B :=
  fun w =>
    match p w with
    | (Py.Ok a, w') => k a w'
    | (Py.Raise e, w') => (Py.Raise e, w')
    end.

#[export] Instance Prog_ret : MRet Prog := @prog_ret.
#[export] Instance Prog_bind : MBind Prog := fun A B k p => prog_bind p k.

Definition lift {A : Type} (r : Py.res A) : Prog A := fun w => (r, w).

(** Reading the global [locations]. *)
Definition get_locations : Prog (list Location) :=
  fun w => (Py.Ok (w_locations w), w).

(** [st.session_state.highlighted_location] *)
Definition get_highlighted : Prog (option string) :=
  fun w => (Py.Ok (highlighted_location (w_session w)), w).

(** [st.session_state.highlighted_location = v] *)
Definition set_highlighted (v : option string) : Prog unit :=
  fun w => (Py.Ok tt,
            {| w_locations := w_locations w;
               w_session := {| highlighted_location := v |} |}).

(** What the sidebar widgets return in one run of the script. *)
Record Inputs : Type := {
  search_term : string;
  selected_type : string;
  selected_location : option string
}.

(** The information panel (lines 211-233). *)
Record Panel : Type := {
  panel_name : string;
  panel_type : string;
  panel_coords : Geopy.coords;
  distance_df : list DistanceRow
}.

Record Page : Type := {
  page_map : Folium.Map;
  page_panel : option Panel
}.

Section Run.

Variable re_other : string -> Py.res (string -> bool).
Variable Inverse : Geopy.coords -> Geopy.coords -> Q.

(** The operations of the specification, as the script performs them on
    the store. *)
Definition run_all : Prog (list Location) := get_locations.

Definition run_byType (t : string) : Prog (list Location) :=
  locs ← get_locations;
  mret (filtered_locations locs t).

Definition run_search (term : string) : Prog (option (list Location)) :=
  locs ← get_locations;
  match search re_other locs term with
  | Some outcome => found ← lift outcome; mret (Some found)
  | None => mret None
  end.

Definition run_distancesFrom (origin : string) : Prog (list (Location * Q)) :=
  locs ← get_locations;
  lift (distancesFrom Inverse locs origin).

Definition run_create_map (a : MapArgs) : Prog Folium.Map :=
  locs ← get_locations;
  lift (create_map locs a).

(** Lines 172-200 up to the call of [create_map]: the choice of the
    highlighted location and of the arguments of the call. *)
Definition select_highlight (search_term : string)
    (selected_location : option string) : Prog MapArgs :=
  if Py.truthy search_term then
    locs ← get_locations;
    found ← lift (found_locations re_other locs search_term);
    match found with
    | first :: _ =>
        set_highlighted (Some (name first));;
        h ← get_highlighted;
        mret {| center_lat := latitude first;
                center_lon := longitude first;
                zoom := 18;
                highlight_name := h |}
    | [] =>
        set_highlighted None;;
        mret default_args
    end
  else
    match selected_location with
    | Some selected =>
        if Py.truthy selected then
          set_highlighted (Some selected);;
          locs ← get_locations;
          loc ← lift (iloc0 (rows_named locs selected));
          h ← get_highlighted;
          mret {| center_lat := latitude loc;
                  center_lon := longitude loc;
                  zoom := 18;
                  highlight_name := h |}
        else
          set_highlighted None;;
          mret default_args
    | None =>
        set_highlighted None;;
        mret default_args
    end.

(** Lines 209-233. *)
Definition info_panel (selected_location : option string)
  : Prog (option Panel) :=
  match selected_location with
  | Some selected =>
      if Py.truthy selected then
        locs ← get_locations;
        loc ← lift (iloc0 (rows_named locs selected));
        ds ← lift (measure Inverse selected (row_coords loc) locs);
        mret (Some {| panel_name := name loc;
                      panel_type := type loc;
                      panel_coords := row_coords loc;
                      distance_df := distance_rows ds |})
      else mret None
  | None => mret None
  end.

(** [main] (lines 134-233) for one run of the script. *)
Definition main (i : Inputs) : Prog Page :=
  a ← select_highlight (search_term i) (selected_location i);
  m ← run_create_map a;
  panel ← info_panel (selected_location i);
  mret {| page_map := m; page_panel := panel |}.

End Run.

(** * Vocabulary of the properties *)

(** Stand-ins used where a property is exercised on concrete data: a
    [re.compile] that rejects every pattern outside the modelled fragment,
    and a non-negative distance (the taxicab distance in degrees, scaled);
    neither is meant as the library's value. *)
Definition re_reject : string -> Py.res (string -> bool) :=
  fun pat => Py.Raise (Py.ReError pat).

Definition taxicab : Geopy.coords -> Geopy.coords -> Q :=
  fun a b => (111320 * (Qabs (a.1 - b.1) + Qabs (a.2 - b.2)))%Q.

(** The mask [locations['type'] == t]. *)
Definition has_type (t : string) (row : Location) : bool :=
  String.eqb (type row) t.

(** The coordinates [Point] keeps when it accepts a pair. *)
Definition wrapped (c : Geopy.coords) : Geopy.coords :=
  (c.1, if Py.Qlt_bool 180 (Qabs c.2)
        then Geopy.normalize_angle c.2 180 else c.2).

(** The test of line 224: [row['name'] != selected_location]. *)
Definition other_than (n : string) (row : Location) : bool :=
  negb (String.eqb (name row) n).

Definition lat_ok (row : Location) : Prop := (Qabs (latitude row) <= 90)%Q.

(** Two rows of the script's table, and a row with a longitude out of
    range in a directory of its own. *)
Definition main_gate : Location :=
  {| name := "Main Gate"; latitude := -0.3918; longitude := 36.9630;
     type := "Entry"; radius := 50 |}.

Definition library : Location :=
  {| name := "Library"; latitude := -0.3925; longitude := 36.9635;
     type := "Academic"; radius := 70 |}.

Definition outpost : Location :=
  {| name := "Outpost"; latitude := 0; longitude := 200;
     type := "Entry"; radius := 50 |}.

Definition far_directory : list Location := [outpost; library].

(** A row with a latitude out of range. *)
Definition beyond_pole : Location :=
  {| name := "Beyond"; latitude := 95; longitude := 0;
     type := "Entry"; radius := 50 |}.

Definition lat_bad (row : Location) : Prop := (90 < Qabs (latitude row))%Q.

Definition latitude_error : Py.exn :=
  Py.ValueError "Latitude must be in the [-90; 90] range.".

(** What one row contributes to the map when every name resolves. *)
Definition row_elements (highlight_name : option string) (row : Location)
  : list Folium.Element :=
  if is_highlighted highlight_name row
  then [highlight_circle row; glowing_marker row]
  else [plain_marker row].

(** [m] after the elements [es] have been added to it, in order. *)
Definition with_children (m : Folium.Map) (es : list Folium.Element)
  : Folium.Map :=
  {| Folium.location := Folium.location m;
     Folium.zoom_start := Folium.zoom_start m;
     Folium.tiles := Folium.tiles m;
     Folium.children := Folium.children m ++ es |}.

(** Every global name read by [create_map] is bound. *)
Definition resolves (bound : list string) : Prop :=
  Forall (fun n => is_bound bound n = true)
    ["folium"; "create_dark_overlay"; "locations"; "Draw"; "DivIcon"; "Locate"].

(** A term without regular-expression metacharacters. *)
Fixpoint plain (s : string) : bool :=
  match s with
  | EmptyString => true
  | String c s' => (negb (Re.is_meta c) && plain s')%bool
  end.

Fixpoint literals (s : string) : list Re.atom :=
  match s with
  | EmptyString => []
  | String c s' => Re.Lit c :: literals s'
  end.

(** Case-insensitive substring match, as the specification words it. *)
Definition name_contains (term : string) (row : Location) : bool :=
  Py.contains (Py.lower term) (Py.lower (name row)).

(** [p] writes nothing, and its result depends on the store only through
    the table. *)
Definition reads_only {A : Type} (p : Prog A) : Prop :=
  (forall w, (p w).2 = w) /\
  (forall w w', w_locations w = w_locations w' -> (p w).1 = (p w').1).

(** [p] leaves the table as it found it. *)
Definition keeps_locations {A : Type} (p : Prog A) : Prop :=
  forall w, w_locations (p w).2 = w_locations w.

(** The store after [highlighted_location] has been set to [v]. *)
Definition highlighting (v : option string) (w : World) : World :=
  {| w_locations := w_locations w;
     w_session := {| highlighted_location := v |} |}.

(** The call [create_map(lat, lon, zoom=18, highlight_name=name)] for a row. *)
Definition centred_on (row : Location) : MapArgs :=
  {| center_lat := latitude row;
     center_lon := longitude row;
     zoom := 18;
     highlight_name := Some (name row) |}.

(** The store of a first run: the script's table, nothing highlighted. *)
Definition fresh_world : World :=
  {| w_locations := locations;
     w_session := {| highlighted_location := None |} |}.

(** The widget values of a run are drawn from the options on offer: a
    selector returns one of its options, or [None] when it has none. *)
Definition offered (locs : list Location) (i : Inputs) : Prop :=
  selected_type i ∈ type_options locs /\
  match selected_location i with
  | Some s => s ∈ location_options locs (selected_type i)
  | None => location_options locs (selected_type i) = []
  end.

(** * Properties *)

(** ** Lists: boolean-mask selection and [unique] *)

Lemma mask_sublist {A : Type} (f : A -> bool) (l : list A) :
  List.filter f l `sublist_of` l.
Proof.
  induction l as [|x l IH]; simpl.
  - constructor.
  - destruct (f x); [apply sublist_skip | apply sublist_cons]; exact IH.
Qed.

Lemma elem_of_mask {A : Type} (f : A -> bool) (l : list A) (x : A) :
  x ∈ List.filter f l <-> x ∈ l /\ f x = true.
Proof. rewrite !list_elem_of_In. apply filter_In. Qed.

Lemma mask_none {A : Type} (f : A -> bool) (l : list A) :
  Forall (fun x => f x = false) l -> List.filter f l = [].
Proof.
  induction 1 as [|x l Hx _ IH]; simpl; [reflexivity|].
  rewrite Hx. exact IH.
Qed.

Lemma mask_all {A : Type} (f : A -> bool) (l : list A) :
  Forall (fun x => f x = true) l -> List.filter f l = l.
Proof.
  induction 1 as [|x l Hx _ IH]; simpl; [reflexivity|].
  rewrite Hx, IH. reflexivity.
Qed.

Lemma mask_Forall {A : Type} (P : A -> Prop) (f : A -> bool) (l : list A) :
  Forall P l -> Forall P (List.filter f l).
Proof.
  rewrite !Forall_forall. intros H x Hx.
  apply elem_of_mask in Hx as [Hx _]. exact (H x Hx).
Qed.

(** Two masks that never hold together split the rows of their union. *)
Lemma mask_split {A : Type} (f g : A -> bool) (l : list A) :
  Forall (fun x => f x && g x = false) l ->
  List.filter f l ++ List.filter g l ≡ₚ List.filter (fun x => f x || g x) l.
Proof.
  induction 1 as [|x l Hx _ IH]; simpl; [reflexivity|].
  destruct (f x) eqn:Hf, (g x) eqn:Hg; simpl in *; try discriminate.
  - now rewrite IH.
  - rewrite <- IH. symmetry. apply Permutation_middle.
  - exact IH.
Qed.

Lemma elem_of_unique (x : string) (l : list string) :
  x ∈ unique l <-> x ∈ l.
Proof.
  induction l as [|y l IH]; simpl; [reflexivity|].
  rewrite !elem_of_cons, elem_of_mask, IH.
  destruct (String.eqb_spec x y) as [->|Hne]; simpl; [tauto|].
  split; [tauto|]. intros [?|?]; [congruence|tauto].
Qed.

Lemma NoDup_unique (l : list string) : NoDup (unique l).
Proof.
  induction l as [|y l IH]; simpl; [constructor|].
  apply NoDup_cons. split.
  - rewrite elem_of_mask, String.eqb_refl. simpl. intros [_ ?]; discriminate.
  - eapply sublist_NoDup; [exact IH | apply mask_sublist].
Qed.

(** ** Filtering by type (C4) *)

Lemma filtered_locations_typed (locs : list Location) (t : string) :
  t <> "All" -> filtered_locations locs t = List.filter (has_type t) locs.
Proof.
  intros Ht. unfold filtered_locations.
  destruct (String.eqb_spec t "All") as [->|_]; [contradiction | reflexivity].
Qed.

Lemma filtered_locations_All (locs : list Location) :
  filtered_locations locs "All" = locs.
Proof. reflexivity. Qed.

Lemma typed_rows_concat (locs : list Location) (ts : list string) :
  NoDup ts ->
  concat (map (fun t => List.filter (has_type t) locs) ts)
    ≡ₚ List.filter (fun row => existsb (String.eqb (type row)) ts) locs.
Proof.
  induction 1 as [|t ts Hnotin _ IH]; simpl.
  - symmetry. rewrite mask_none; [reflexivity|]. now apply Forall_forall.
  - rewrite IH.
    rewrite (mask_split (has_type t)
               (fun row => existsb (String.eqb (type row)) ts)).
    + reflexivity.
    + apply Forall_forall. intros row _. unfold has_type.
      destruct (String.eqb_spec (type row) t) as [<-|_]; [simpl|reflexivity].
      apply not_true_is_false. intros Hex.
      apply existsb_exists in Hex as (t' & Hin & Heq).
      apply String.eqb_eq in Heq. subst t'.
      apply Hnotin, list_elem_of_In, Hin.
Qed.

Lemma type_listed (locs : list Location) (row : Location) :
  row ∈ locs -> type row ∈ unique (map type locs).
Proof.
  intros Hin. apply elem_of_unique, list_elem_of_fmap. eauto.
Qed.

(** C4, as stated, fails on the selector value "All": no location of the
    script's table has that type, yet the filter returns the whole table
    instead of the empty sequence. *)
Lemma filtered_locations_All_not_empty :
  Forall (fun row => type row <> "All") locations /\
  filtered_locations locations "All" = locations /\
  filtered_locations locations "All" <> [].
Proof.
  split; [|split].
  - repeat constructor; discriminate.
  - reflexivity.
  - discriminate.
Qed.

(** C4 (amended): on a directory in which no location has the reserved type
    "All", the filter partitions the directory over its distinct type values
    (their results, put together, are a rearrangement of the directory, and
    two distinct type values share no location); every result keeps the
    directory order; a type other than "All" that no location has gives the
    empty sequence; "All" gives the whole directory. *)
Theorem filtered_locations_partition (locs : list Location) :
  Forall (fun row => type row <> "All") locs ->
  let types := unique (map type locs) in
  concat (map (filtered_locations locs) types) ≡ₚ locs /\
  (forall t1 t2 row,
      t1 ∈ types -> t2 ∈ types -> t1 <> t2 ->
      row ∈ filtered_locations locs t1 ->
      row ∈ filtered_locations locs t2 -> False) /\
  (forall t, filtered_locations locs t `sublist_of` locs) /\
  (forall t, t <> "All" -> Forall (fun row => type row <> t) locs ->
             filtered_locations locs t = []) /\
  filtered_locations locs "All" = locs.
Proof.
  intros Hnot types.
  assert (Htypes : forall t, t ∈ types -> t <> "All").
  { intros t Ht ->. apply elem_of_unique, list_elem_of_fmap in Ht
      as (row & Heq & Hrow).
    rewrite Forall_forall in Hnot. exact (Hnot row Hrow (eq_sym Heq)). }
  split; [|split; [|split; [|split]]].
  - rewrite (map_ext_in (filtered_locations locs)
               (fun t => List.filter (has_type t) locs)).
    + rewrite typed_rows_concat by apply NoDup_unique.
      rewrite mask_all; [reflexivity|].
      apply Forall_forall. intros row Hrow.
      apply existsb_exists. exists (type row). split.
      * apply list_elem_of_In, type_listed, Hrow.
      * apply String.eqb_refl.
    + intros t Ht. apply filtered_locations_typed, Htypes, list_elem_of_In, Ht.
  - intros t1 t2 row H1 H2 Hne Hr1 Hr2.
    rewrite filtered_locations_typed in Hr1 by auto.
    rewrite filtered_locations_typed in Hr2 by auto.
    apply elem_of_mask in Hr1 as [_ Hr1]. apply elem_of_mask in Hr2 as [_ Hr2].
    apply String.eqb_eq in Hr1, Hr2. congruence.
  - intros t. unfold filtered_locations.
    destruct (negb (String.eqb t "All")); [apply mask_sublist | reflexivity].
  - intros t Ht Hnone. rewrite filtered_locations_typed by exact Ht.
    apply mask_none. eapply Forall_impl; [exact Hnone|].
    intros row Hrow. apply String.eqb_neq, Hrow.
  - reflexivity.
Qed.

Lemma filtered_locations_partition_witness :
  Forall (fun row => type row <> "All") locations /\
  concat (map (filtered_locations locations) (unique (map type locations)))
    ≡ₚ locations.
Proof.
  assert (H : Forall (fun row => type row <> "All") locations)
    by (repeat constructor; discriminate).
  split; [exact H|].
  exact (proj1 (filtered_locations_partition locations H)).
Defined.

Example filtered_locations_Academic :
  map name (filtered_locations locations "Academic")
  = ["Library"; "Engineering Block"].
Proof. reflexivity. Qed.

(** ** geopy's [Point] *)

Lemma Qlt_bool_false (x y : Q) : (y <= x)%Q -> Py.Qlt_bool x y = false.
Proof.
  intros H. unfold Py.Qlt_bool. apply negb_false_iff, Qle_bool_iff, H.
Qed.

Lemma Qlt_bool_true (x y : Q) : (x < y)%Q -> Py.Qlt_bool x y = true.
Proof.
  intros H. unfold Py.Qlt_bool. apply negb_true_iff.
  destruct (Qle_bool y x) eqn:E; [|reflexivity].
  apply Qle_bool_iff in E. exfalso. exact (Qlt_not_le _ _ H E).
Qed.

Lemma Point_latitude_ok (c : Geopy.coords) :
  (Qabs c.1 <= 90)%Q -> Geopy.Point c = Py.Ok (wrapped c).
Proof.
  destruct c as [lat lon]. simpl. intros H.
  unfold Geopy.Point, wrapped. simpl.
  rewrite (Qlt_bool_false _ _ H).
  destruct (Py.Qlt_bool 180 (Qabs lon)); reflexivity.
Qed.

Lemma Point_latitude_bad (c : Geopy.coords) :
  (90 < Qabs c.1)%Q ->
  Geopy.Point c
  = Py.Raise (Py.ValueError "Latitude must be in the [-90; 90] range.").
Proof.
  destruct c as [lat lon]. simpl. intros H.
  unfold Geopy.Point. rewrite (Qlt_bool_true _ _ H). reflexivity.
Qed.

(** ** Distances from the selected location (C1, C2) *)

Lemma same_name_same_row (locs : list Location) (r1 r2 : Location) :
  NoDup (map name locs) -> r1 ∈ locs -> r2 ∈ locs ->
  name r1 = name r2 -> r1 = r2.
Proof.
  induction locs as [|row locs IH]; simpl; intros Hnd H1 H2 Heq.
  - inversion H1.
  - apply NoDup_cons in Hnd as [Hnotin Hnd].
    apply elem_of_cons in H1 as [->|H1], H2 as [->|H2]; auto.
    + exfalso. apply Hnotin. rewrite Heq. apply list_elem_of_fmap. eauto.
    + exfalso. apply Hnotin. rewrite <- Heq. apply list_elem_of_fmap. eauto.
Qed.

Lemma iloc0_rows_named (locs : list Location) (origin : Location) :
  NoDup (map name locs) -> origin ∈ locs ->
  iloc0 (rows_named locs (name origin)) = Py.Ok origin.
Proof.
  intros Hnd Hin.
  destruct (rows_named locs (name origin)) as [|row rest] eqn:E.
  - exfalso.
    assert (H : origin ∈ rows_named locs (name origin)).
    { apply elem_of_mask. split; [exact Hin | apply String.eqb_refl]. }
    rewrite E in H. inversion H.
  - simpl. f_equal.
    assert (H : row ∈ rows_named locs (name origin))
      by (rewrite E; apply list_elem_of_here).
    apply elem_of_mask in H as [Hrow Hname].
    apply String.eqb_eq in Hname.
    exact (same_name_same_row locs row origin Hnd Hrow Hin Hname).
Qed.


Lemma measure_ok (Inverse : Geopy.coords -> Geopy.coords -> Q)
    (sel : string) (c : Geopy.coords) (rows : list Location) :
  (Qabs c.1 <= 90)%Q ->
  Forall lat_ok (List.filter (other_than sel) rows) ->
  measure Inverse sel c rows
  = Py.Ok (map (fun row => (row, Inverse (wrapped c) (wrapped (row_coords row))))
               (List.filter (other_than sel) rows)).
Proof.
  intros Hc. induction rows as [|row rows IH]; simpl; intros Hrows.
  - reflexivity.
  - fold (other_than sel row). destruct (other_than sel row).
    + apply Forall_cons in Hrows as [Hrow Hrows].
      unfold Geopy.geodesic_meters.
      rewrite (Point_latitude_ok c Hc), (Point_latitude_ok (row_coords row) Hrow).
      simpl. rewrite (IH Hrows). reflexivity.
    + exact (IH Hrows).
Qed.

Lemma geodesic_meters_ok (Inverse : Geopy.coords -> Geopy.coords -> Q)
    (a b : Geopy.coords) :
  (Qabs a.1 <= 90)%Q -> (Qabs b.1 <= 90)%Q ->
  Geopy.geodesic_meters Inverse a b = Py.Ok (Inverse (wrapped a) (wrapped b)).
Proof.
  intros Ha Hb. unfold Geopy.geodesic_meters.
  rewrite (Point_latitude_ok a Ha), (Point_latitude_ok b Hb). reflexivity.
Qed.

Lemma distancesFrom_eq (Inverse : Geopy.coords -> Geopy.coords -> Q)
    (locs : list Location) (origin : Location) :
  origin ∈ locs ->
  NoDup (map name locs) ->
  Forall lat_ok locs ->
  distancesFrom Inverse locs (name origin)
  = Py.Ok (map (fun row => (row, Inverse (wrapped (row_coords origin))
                                         (wrapped (row_coords row))))
               (List.filter (other_than (name origin)) locs)).
Proof.
  intros Hin Hnd Hlat. unfold distancesFrom.
  rewrite (iloc0_rows_named locs origin Hnd Hin). simpl.
  apply measure_ok.
  - rewrite Forall_forall in Hlat. exact (Hlat origin Hin).
  - apply mask_Forall, Hlat.
Qed.




Lemma locations_lat_ok : Forall lat_ok locations.
Proof. repeat constructor; unfold lat_ok; simpl; discriminate. Qed.


(** The two-location directory of the specification's scenario: one
    entry, for Library, whose distance is geopy's value for the two
    points. *)
Example distancesFrom_two_locations
    (Inverse : Geopy.coords -> Geopy.coords -> Q) :
  distancesFrom Inverse [main_gate; library] "Main Gate"
  = Py.Ok [(library, Inverse (row_coords main_gate) (row_coords library))].
Proof. reflexivity. Qed.

(** The distances reported between two locations in either direction are
    geopy's values for the two orders of the points. *)
Lemma distancesFrom_both_ways (Inverse : Geopy.coords -> Geopy.coords -> Q)
    (locs : list Location) (a b : Location) :
  a ∈ locs -> b ∈ locs -> a <> b ->
  NoDup (map name locs) -> Forall lat_ok locs ->
  exists da db,
    distancesFrom Inverse locs (name a) = Py.Ok da /\
    (b, Inverse (wrapped (row_coords a)) (wrapped (row_coords b))) ∈ da /\
    distancesFrom Inverse locs (name b) = Py.Ok db /\
    (a, Inverse (wrapped (row_coords b)) (wrapped (row_coords a))) ∈ db.
Proof.
  intros Ha Hb Hne Hnd Hlat.
  assert (Hother : forall x y, x ∈ locs -> y ∈ locs -> x <> y ->
                     y ∈ List.filter (other_than (name x)) locs).
  { intros x y Hx Hy Hxy. apply elem_of_mask. split; [exact Hy|].
    unfold other_than. apply negb_true_iff, String.eqb_neq. intros Heq.
    apply Hxy. symmetry.
    exact (same_name_same_row locs y x Hnd Hy Hx Heq). }
  do 2 eexists. split; [|split; [|split]].
  - exact (distancesFrom_eq Inverse locs a Ha Hnd Hlat).
  - apply (list_elem_of_fmap_2
             (fun row => (row, Inverse (wrapped (row_coords a))
                                       (wrapped (row_coords row))))).
    apply Hother; assumption.
  - exact (distancesFrom_eq Inverse locs b Hb Hnd Hlat).
  - apply (list_elem_of_fmap_2
             (fun row => (row, Inverse (wrapped (row_coords b))
                                       (wrapped (row_coords row))))).
    apply Hother; auto.
Qed.

(** C2, as stated, fails on a longitude outside [-180, 180]: the origin
    below has longitude 200 and the query returns its one entry. *)
Lemma distancesFrom_longitude_200_returns :
  outpost ∈ far_directory /\
  (180 < Qabs (longitude outpost))%Q /\
  exists d,
    distancesFrom taxicab far_directory (name outpost) = Py.Ok [(library, d)].
Proof.
  split; [apply list_elem_of_here|]. split; [reflexivity|].
  eexists. reflexivity.
Qed.

Lemma geodesic_meters_bad (Inverse : Geopy.coords -> Geopy.coords -> Q)
    (a b : Geopy.coords) :
  (90 < Qabs a.1)%Q \/ (90 < Qabs b.1)%Q ->
  Geopy.geodesic_meters Inverse a b = Py.Raise latitude_error.
Proof.
  intros H. unfold Geopy.geodesic_meters.
  destruct (Qlt_le_dec 90 (Qabs a.1)) as [Ha|Ha].
  - rewrite (Point_latitude_bad a Ha). reflexivity.
  - destruct H as [H|H]; [exfalso; exact (Qlt_not_le _ _ H Ha)|].
    rewrite (Point_latitude_ok a Ha), (Point_latitude_bad b H). reflexivity.
Qed.

Lemma measure_bad (Inverse : Geopy.coords -> Geopy.coords -> Q)
    (sel : string) (c : Geopy.coords) (rows : list Location) :
  List.filter (other_than sel) rows <> [] ->
  (90 < Qabs c.1)%Q \/ Exists lat_bad (List.filter (other_than sel) rows) ->
  measure Inverse sel c rows = Py.Raise latitude_error.
Proof.
  induction rows as [|row rows IH]; simpl; [congruence|].
  fold (other_than sel row). destruct (other_than sel row); [|exact IH].
  intros _ Hbad.
  destruct (Qlt_le_dec 90 (Qabs c.1)) as [Hc|Hc].
  { rewrite geodesic_meters_bad by (left; exact Hc). reflexivity. }
  destruct Hbad as [Hbad|Hbad]; [exfalso; exact (Qlt_not_le _ _ Hbad Hc)|].
  destruct (Qlt_le_dec 90 (Qabs (latitude row))) as [Hrow|Hrow].
  { rewrite geodesic_meters_bad by (right; exact Hrow). reflexivity. }
  rewrite geodesic_meters_ok by assumption. simpl.
  apply Exists_cons in Hbad as [Hbad|Hbad];
    [exfalso; exact (Qlt_not_le _ _ Hbad Hrow)|].
  rewrite IH; [reflexivity | | right; exact Hbad].
  intros Hnil. rewrite Hnil in Hbad. inversion Hbad.
Qed.

Lemma measure_ok_none (Inverse : Geopy.coords -> Geopy.coords -> Q)
    (sel : string) (c : Geopy.coords) (rows : list Location) :
  List.filter (other_than sel) rows = [] ->
  measure Inverse sel c rows = Py.Ok [].
Proof.
  induction rows as [|row rows IH]; simpl; [reflexivity|].
  fold (other_than sel row). destruct (other_than sel row);
    [discriminate | exact IH].
Qed.

(** C2 (amended): the distance query has no range check of its own and
    fails only where geopy's [Point] does.  For an origin of a directory
    with unique names: it returns when the latitudes of the origin and of
    the other locations are within [-90, 90], whatever the longitudes (a
    longitude outside [-180, 180] is wrapped, not rejected), and when there
    is no other location; it raises the [ValueError] of [Point] when there
    is another location and the latitude of the origin or of another
    location is outside [-90, 90]. *)
Theorem distancesFrom_fails_on_latitude_only
    (Inverse : Geopy.coords -> Geopy.coords -> Q)
    (locs : list Location) (origin : Location) :
  origin ∈ locs ->
  NoDup (map name locs) ->
  let others := List.filter (other_than (name origin)) locs in
  (Forall lat_ok (origin :: others) \/ others = [] ->
   Py.raises (distancesFrom Inverse locs (name origin)) = false) /\
  (others <> [] -> Exists lat_bad (origin :: others) ->
   distancesFrom Inverse locs (name origin) = Py.Raise latitude_error).
Proof.
  intros Hin Hnd others. unfold distancesFrom.
  rewrite (iloc0_rows_named locs origin Hnd Hin). simpl. split.
  - intros [Hok|Hnone].
    + apply Forall_cons in Hok as [Ho Hok].
      rewrite measure_ok by assumption. reflexivity.
    + rewrite measure_ok_none by exact Hnone. reflexivity.
  - intros Hsome Hbad. apply measure_bad; [exact Hsome|].
    apply Exists_cons in Hbad as [Hbad|Hbad]; [left|right]; exact Hbad.
Qed.

Lemma distancesFrom_fails_on_latitude_only_witness :
  Py.raises (distancesFrom taxicab far_directory "Outpost") = false.
Proof.
  assert (Hin : outpost ∈ far_directory) by apply list_elem_of_here.
  assert (Hnd : NoDup (map name far_directory))
    by (apply (bool_decide_unpack _); vm_compute; exact I).
  apply (proj1 (distancesFrom_fails_on_latitude_only
                  taxicab far_directory outpost Hin Hnd)).
  left. repeat constructor; unfold lat_ok; simpl; discriminate.
Defined.

(** ** Building the map (C3) *)

Lemma with_children_nil (m : Folium.Map) : with_children m [] = m.
Proof. destruct m. unfold with_children. simpl. now rewrite app_nil_r. Qed.

Lemma with_children_add (m : Folium.Map) (es : list Folium.Element)
    (e : Folium.Element) :
  Folium.add_to e (with_children m es) = with_children m (es ++ [e]).
Proof. unfold Folium.add_to, with_children. simpl. now rewrite app_assoc. Qed.

Lemma with_children_app (m : Folium.Map) (es es' : list Folium.Element) :
  with_children (with_children m es) es' = with_children m (es ++ es').
Proof. unfold with_children. simpl. now rewrite app_assoc. Qed.

(** The loop over the table as the script runs it: the rows before the
    first highlighted one get their plain markers; at the highlighted row
    the circle is added and the unbound name [DivIcon] is read. *)
Lemma add_locations_module_globals (h : option string) (rows : list Location)
    (m : Folium.Map) :
  if existsb (is_highlighted h) rows
  then exists m', add_locations module_globals h rows m
                  = Aborted (Py.NameError "DivIcon") m'
  else add_locations module_globals h rows m
       = Built (with_children m (map plain_marker rows)).
Proof.
  revert m. induction rows as [|row rows IH]; intros m; simpl.
  - now rewrite with_children_nil.
  - unfold add_location. simpl.
    destruct (is_highlighted h row) eqn:Hrow; simpl.
    + eexists. reflexivity.
    + specialize (IH (Folium.add_to (plain_marker row) m)).
      destruct (existsb (is_highlighted h) rows).
      * exact IH.
      * rewrite IH. f_equal.
        rewrite <- (with_children_nil m) at 1.
        rewrite with_children_add, with_children_app. reflexivity.
Qed.

(** C3 (as the script runs): [create_map] never returns a map.  A call
    that highlights a row of the table stops with [NameError] on
    [DivIcon] (line 111), any other call with [NameError] on [Locate]
    (line 130): neither name is imported or defined by the script. *)
Theorem create_map_never_returns (locs : list Location) (a : MapArgs) :
  create_map locs a
  = Py.Raise (Py.NameError
                (if existsb (is_highlighted (highlight_name a)) locs
                 then "DivIcon" else "Locate")).
Proof.
  unfold create_map, create_map_with. simpl.
  set (m0 := {| Folium.location := _ |}).
  assert (H : forall m,
             returned
               (and_then (add_locations module_globals (highlight_name a) locs m)
                  (fun m1 => Aborted (Py.NameError "Locate")
                               (Folium.add_to draw_control m1)))
             = Py.Raise (Py.NameError
                           (if existsb (is_highlighted (highlight_name a)) locs
                            then "DivIcon" else "Locate"))).
  { intros m.
    pose proof (add_locations_module_globals (highlight_name a) locs m) as Hl.
    destruct (existsb (is_highlighted (highlight_name a)) locs).
    - destruct Hl as [m' ->]. reflexivity.
    - rewrite Hl. reflexivity. }
  destruct (Py.truthy_opt (highlight_name a)); simpl; apply H.
Qed.

Lemma add_locations_resolved (bound : list string) (h : option string)
    (rows : list Location) (m : Folium.Map) :
  is_bound bound "folium" = true -> is_bound bound "DivIcon" = true ->
  add_locations bound h rows m
  = Built (with_children m (concat (map (row_elements h) rows))).
Proof.
  intros Hf Hd. revert m. induction rows as [|row rows IH]; intros m; simpl.
  - now rewrite with_children_nil.
  - unfold add_location, row_elements. simpl. rewrite Hf.
    destruct (is_highlighted h row); simpl; rewrite ?Hd; simpl; rewrite IH;
      f_equal; rewrite <- (with_children_nil m) at 1;
      rewrite !with_children_add, with_children_app; reflexivity.
Qed.

(** Were the two names bound, [create_map] would build what C3 describes:
    the overlay exactly when a (non-empty) name is given, then for each row
    either its plain marker or, for the highlighted row, the circle of its
    radius and the glowing marker, then the draw and locate controls. *)
Lemma create_map_with_resolved (bound : list string) (locs : list Location)
    (a : MapArgs) :
  resolves bound ->
  create_map_with bound locs a
  = Built {| Folium.location := (center_lat a, center_lon a);
             Folium.zoom_start := zoom a;
             Folium.tiles := "OpenStreetMap";
             Folium.children :=
               (if Py.truthy_opt (highlight_name a) then [dark_overlay] else [])
               ++ concat (map (row_elements (highlight_name a)) locs)
               ++ [draw_control; Folium.Locate] |}.
Proof.
  intros H. unfold resolves in H. rewrite !Forall_cons in H.
  destruct H as (Hf & Ho & Hl & Hd & Hi & Hc & _).
  unfold create_map_with, create_dark_overlay. simpl. rewrite Hf.
  destruct (Py.truthy_opt (highlight_name a)); simpl;
    rewrite ?Ho, ?Hf, Hl; simpl;
    rewrite add_locations_resolved by assumption; simpl;
    rewrite Hd, Hc; unfold Folium.add_to, with_children; simpl;
    rewrite <- ?app_assoc; reflexivity.
Qed.

(** The two render states, were the names bound: with the name of a row
    the map carries the overlay, that row's circle and its glowing marker;
    with no name it carries the plain markers and the two controls only. *)
Lemma resolved_highlighted (bound : list string) (locs : list Location)
    (row : Location) (m : Folium.Map) :
  resolves bound -> row ∈ locs -> Py.truthy (name row) = true ->
  create_map_with bound locs (centred_on row) = Built m ->
  dark_overlay ∈ Folium.children m /\
  highlight_circle row ∈ Folium.children m /\
  glowing_marker row ∈ Folium.children m.
Proof.
  intros Hb Hrow Hname. rewrite (create_map_with_resolved bound locs _ Hb).
  intros [= <-]. simpl. rewrite Hname.
  assert (Hin : forall e, e ∈ row_elements (Some (name row)) row ->
                  e ∈ ([dark_overlay]
                       ++ concat (map (row_elements (Some (name row))) locs)
                       ++ [draw_control; Folium.Locate])%list).
  { intros e He. apply elem_of_app. right. apply elem_of_app. left.
    apply list_elem_of_In, in_concat. exists (row_elements (Some (name row)) row).
    split; [apply in_map, list_elem_of_In, Hrow | apply list_elem_of_In, He]. }
  assert (Hrow_elements : row_elements (Some (name row)) row
                          = [highlight_circle row; glowing_marker row]).
  { unfold row_elements, is_highlighted.
    now rewrite Hname, String.eqb_refl. }
  rewrite Hrow_elements in Hin. repeat split.
  - apply list_elem_of_here.
  - apply Hin, list_elem_of_here.
  - apply Hin, list_elem_of_further, list_elem_of_here.
Qed.

Lemma resolved_plain (bound : list string) (locs : list Location)
    (lat lon : Q) (z : Z) :
  resolves bound ->
  create_map_with bound locs
    {| center_lat := lat; center_lon := lon; zoom := z;
       highlight_name := None |}
  = Built {| Folium.location := (lat, lon);
             Folium.zoom_start := z;
             Folium.tiles := "OpenStreetMap";
             Folium.children :=
               map plain_marker locs ++ [draw_control; Folium.Locate] |}.
Proof.
  intros Hb. rewrite (create_map_with_resolved bound locs _ Hb). simpl.
  do 3 f_equal. induction locs as [|r locs IH]; simpl; [reflexivity|].
  now rewrite IH.
Qed.

(** The call [main] makes when "Library" is selected: the overlay, the
    marker of the row before it and its circle are on the map when the
    exception leaves the function. *)
Example create_map_library :
  create_map_with module_globals locations
    {| center_lat := -0.3925; center_lon := 36.9635; zoom := 18;
       highlight_name := Some "Library" |}
  = Aborted (Py.NameError "DivIcon")
      {| Folium.location := (-0.3925, 36.9635)%Q;
         Folium.zoom_start := 18;
         Folium.tiles := "OpenStreetMap";
         Folium.children :=
           [dark_overlay;
            Folium.Marker (-0.3918, 36.9630)%Q
              {| Folium.popup_name := "Main Gate";
                 Folium.popup_type := "Entry";
                 Folium.popup_lat := -0.3918;
                 Folium.popup_lon := 36.9630 |} "Main Gate" None;
            highlight_circle library] |}.
Proof. reflexivity. Qed.

Example create_map_default :
  create_map locations default_args = Py.Raise (Py.NameError "Locate").
Proof. reflexivity. Qed.

(** ** Searching by name (C5, C6) *)

Lemma parse_plain (pat : string) :
  plain pat = true -> Re.parse pat = Some (literals pat).
Proof.
  induction pat as [|c pat IH]; simpl; [reflexivity|].
  intros H. apply andb_true_iff in H as [Hc Hpat].
  apply negb_true_iff in Hc.
  destruct (Ascii.eqb_spec c ".") as [->|_]; [discriminate|].
  rewrite Hc, (IH Hpat). reflexivity.
Qed.

Lemma plain_not_quantified (pat : string) :
  plain pat = true -> Re.leading_quantifier pat = false.
Proof.
  destruct pat as [|c pat]; simpl; [reflexivity|].
  intros H. apply andb_true_iff in H as [Hc _]. apply negb_true_iff in Hc.
  unfold Re.is_meta, Re.metachars in Hc. simpl in Hc.
  repeat (apply orb_false_iff in Hc as [? Hc]).
  repeat (apply orb_false_iff; split); assumption.
Qed.

Lemma compile_plain (other : string -> Py.res (string -> bool)) (pat : string) :
  plain pat = true -> Re.compile other pat = Py.Ok (Re.search (literals pat)).
Proof.
  intros H. unfold Re.compile.
  now rewrite (plain_not_quantified _ H), (parse_plain _ H).
Qed.

Lemma match_here_literals (p s : string) :
  Re.match_here (literals p) s = Py.starts_with p s.
Proof.
  revert s. induction p as [|a p IH]; intros s; simpl; [reflexivity|].
  destruct s as [|b s]; simpl; [reflexivity|]. now rewrite IH.
Qed.

Lemma search_literals (p s : string) :
  Re.search (literals p) s = Py.contains p s.
Proof.
  induction s as [|b s IH]; simpl.
  - now rewrite match_here_literals.
  - now rewrite match_here_literals, IH.
Qed.

(** On a term free of metacharacters the search is the case-insensitive
    substring match, in directory order. *)
Lemma found_locations_plain (re_other : string -> Py.res (string -> bool))
    (locs : list Location) (term : string) :
  plain (Py.lower term) = true ->
  found_locations re_other locs term
  = Py.Ok (List.filter (name_contains term) locs).
Proof.
  intros H. unfold found_locations.
  rewrite (compile_plain _ _ H). simpl. f_equal.
  apply filter_ext. intros row. apply search_literals.
Qed.

Lemma lower_truthy (s : string) : Py.truthy (Py.lower s) = Py.truthy s.
Proof. destruct s; reflexivity. Qed.

Lemma starts_with_refl (s : string) : Py.starts_with s s = true.
Proof.
  induction s as [|c s IH]; simpl; [reflexivity|].
  now rewrite Ascii.eqb_refl, IH.
Qed.

Lemma contains_refl (s : string) : Py.contains s s = true.
Proof. destruct s; simpl; [reflexivity|]. now rewrite Ascii.eqb_refl, starts_with_refl. Qed.

(** A location whose name is non-empty and free of metacharacters is found
    under its own name, however the term is capitalised. *)
Lemma search_plain_name (re_other : string -> Py.res (string -> bool))
    (locs : list Location) (row : Location) (term : string) :
  row ∈ locs ->
  Py.truthy (name row) = true ->
  plain (Py.lower (name row)) = true ->
  Py.lower term = Py.lower (name row) ->
  exists found,
    search re_other locs term = Some (Py.Ok found) /\ row ∈ found.
Proof.
  intros Hrow Hne Hplain Hterm. unfold search.
  rewrite <- (lower_truthy term), Hterm, lower_truthy, Hne.
  rewrite found_locations_plain by (rewrite Hterm; exact Hplain).
  eexists. split; [reflexivity|].
  apply elem_of_mask. split; [exact Hrow|].
  unfold name_contains. rewrite Hterm. apply contains_refl.
Qed.

(** Each location of the script's table is found under its own name. *)
Lemma search_own_name (re_other : string -> Py.res (string -> bool))
    (row : Location) (term : string) :
  row ∈ locations ->
  Py.lower term = Py.lower (name row) ->
  exists found,
    search re_other locations term = Some (Py.Ok found) /\ row ∈ found.
Proof.
  intros Hrow Hterm.
  assert (H : Forall (fun r => Py.truthy (name r) = true /\
                               plain (Py.lower (name r)) = true) locations)
    by (repeat constructor).
  rewrite Forall_forall in H. destruct (H row Hrow) as [Hne Hplain].
  exact (search_plain_name re_other locations row term Hrow Hne Hplain Hterm).
Qed.

(** Without the guard of line 176 the empty term would select every row:
    the empty pattern matches at the start of any name. *)
Lemma found_locations_empty_pattern
    (re_other : string -> Py.res (string -> bool)) (locs : list Location) :
  found_locations re_other locs "" = Py.Ok locs.
Proof.
  unfold found_locations. simpl. f_equal. apply mask_all.
  apply Forall_forall. intros row _. now destruct (Py.lower (name row)).
Qed.

(** C5 (failing input): the term "." occurs in no name of the table, yet
    the search returns every location, because the term is compiled as a
    regular expression in which the dot stands for any character. *)
Theorem search_dot_finds_everything
    (re_other : string -> Py.res (string -> bool)) :
  search re_other locations "." = Some (Py.Ok locations) /\
  List.filter (name_contains ".") locations = [].
Proof. split; reflexivity. Qed.

(** The same reading of the term makes the search raise on a term such
    as "*": [re.error] leaves [main] before anything is chosen, and the
    session state keeps what it held. *)
Lemma search_star_raises (re_other : string -> Py.res (string -> bool))
    (locs : list Location) :
  search re_other locs "*"
  = Some (Py.Raise (Py.ReError "nothing to repeat at position 0")).
Proof. reflexivity. Qed.

Lemma select_highlight_star (re_other : string -> Py.res (string -> bool))
    (sel : option string) (w : World) :
  select_highlight re_other "*" sel w
  = (Py.Raise (Py.ReError "nothing to repeat at position 0"), w).
Proof. reflexivity. Qed.

(** How the choice of the highlight follows from the search: an outcome
    of the search decides alone, and only when there was no search is the
    choice left to the location selector. *)
Lemma select_highlight_via_search
    (re_other : string -> Py.res (string -> bool))
    (term : string) (sel : option string) (w : World) :
  match search re_other (w_locations w) term with
  | Some (Py.Raise e) =>
      select_highlight re_other term sel w = (Py.Raise e, w)
  | Some (Py.Ok []) =>
      select_highlight re_other term sel w
      = (Py.Ok default_args, highlighting None w)
  | Some (Py.Ok (first :: _)) =>
      select_highlight re_other term sel w
      = (Py.Ok (centred_on first), highlighting (Some (name first)) w)
  | None =>
      term = "" /\
      select_highlight re_other term sel w
      = select_highlight re_reject "" sel w
  end.
Proof.
  unfold search, select_highlight. destruct term as [|c term]; simpl.
  - split; reflexivity.
  - unfold mbind, Prog_bind, prog_bind, get_locations, lift.
    destruct (found_locations re_other (w_locations w) (String c term))
      as [[|first rest]|e]; reflexivity.
Qed.



(** ** The store: what the operations read and write (C9) *)

Lemma reads_only_ret {A : Type} (a : A) : reads_only (mret a).
Proof. split; reflexivity. Qed.

Lemma reads_only_lift {A : Type} (r : Py.res A) : reads_only (lift r).
Proof. split; reflexivity. Qed.

Lemma reads_only_get_locations : reads_only get_locations.
Proof. split; [reflexivity|]. intros w w' H. simpl. now rewrite H. Qed.

Lemma reads_only_bind {A B : Type} (p : Prog A) (k : A -> Prog B) :
  reads_only p -> (forall a, reads_only (k a)) -> reads_only (p ≫= k).
Proof.
  intros [Hp1 Hp2] Hk. unfold mbind, Prog_bind, prog_bind. split.
  - intros w. specialize (Hp1 w). destruct (p w) as [[a|e] w1]; simpl in *.
    + subst w1. apply (Hk a).
    + exact Hp1.
  - intros w w' Hw.
    pose proof (Hp1 w) as H1. pose proof (Hp1 w') as H1'.
    specialize (Hp2 w w' Hw).
    destruct (p w) as [r w1], (p w') as [r' w1']; simpl in *. subst.
    destruct r' as [a|e]; [apply (Hk a), Hw | reflexivity].
Qed.

Lemma reads_only_keeps {A : Type} (p : Prog A) :
  reads_only p -> keeps_locations p.
Proof. intros [H _] w. now rewrite H. Qed.

Lemma keeps_set_highlighted (v : option string) :
  keeps_locations (set_highlighted v).
Proof. intros w. reflexivity. Qed.

Lemma keeps_get_highlighted : keeps_locations get_highlighted.
Proof. intros w. reflexivity. Qed.

Lemma keeps_bind {A B : Type} (p : Prog A) (k : A -> Prog B) :
  keeps_locations p -> (forall a, keeps_locations (k a)) ->
  keeps_locations (p ≫= k).
Proof.
  intros Hp Hk w. unfold mbind, Prog_bind, prog_bind.
  specialize (Hp w). destruct (p w) as [[a|e] w1]; simpl in *.
  - now rewrite Hk.
  - exact Hp.
Qed.

Lemma keeps_ret {A : Type} (a : A) : keeps_locations (mret a).
Proof. intros w. reflexivity. Qed.

Lemma keeps_lift {A : Type} (r : Py.res A) : keeps_locations (lift r).
Proof. intros w. reflexivity. Qed.

Lemma keeps_get_locations : keeps_locations get_locations.
Proof. intros w. reflexivity. Qed.

Ltac reads_only_tac :=
  repeat first
    [ apply reads_only_bind; [|intros ?]
    | apply reads_only_ret
    | apply reads_only_lift
    | apply reads_only_get_locations ].

Ltac keeps_tac :=
  repeat first
    [ apply keeps_bind; [|intros ?]
    | apply keeps_ret
    | apply keeps_lift
    | apply keeps_get_locations
    | apply keeps_get_highlighted
    | apply keeps_set_highlighted
    | match goal with
      | |- keeps_locations (match ?x with _ => _ end) => destruct x
      | |- keeps_locations (if ?x then _ else _) => destruct x
      end ].

Lemma select_highlight_keeps (re_other : string -> Py.res (string -> bool))
    (term : string) (sel : option string) :
  keeps_locations (select_highlight re_other term sel).
Proof. unfold select_highlight. keeps_tac. Qed.

Lemma info_panel_keeps (Inverse : Geopy.coords -> Geopy.coords -> Q)
    (sel : option string) :
  keeps_locations (info_panel Inverse sel).
Proof. unfold info_panel. keeps_tac. Qed.

(** C9: the five operations write nothing to the store, so the table of
    locations is after each of them what it was before, and their result
    is determined by the table and their arguments; a whole run of [main],
    which does write the session state, leaves the table unchanged too. *)
Theorem directory_read_only (re_other : string -> Py.res (string -> bool))
    (Inverse : Geopy.coords -> Geopy.coords -> Q) :
  reads_only run_all /\
  (forall t, reads_only (run_byType t)) /\
  (forall term, reads_only (run_search re_other term)) /\
  (forall origin, reads_only (run_distancesFrom Inverse origin)) /\
  (forall a, reads_only (run_create_map a)) /\
  (forall i, keeps_locations (main re_other Inverse i)).
Proof.
  refine (conj _ (conj _ (conj _ (conj _ (conj _ _))))); try intros x.
  - unfold run_all. reads_only_tac.
  - unfold run_byType. reads_only_tac.
  - unfold run_search.
    apply reads_only_bind; [apply reads_only_get_locations | intros locs].
    destruct (search re_other locs x); reads_only_tac.
  - unfold run_distancesFrom. reads_only_tac.
  - unfold run_create_map. reads_only_tac.
  - unfold main, run_create_map.
    apply keeps_bind; [apply select_highlight_keeps | intros ?].
    apply keeps_bind; [keeps_tac | intros ?].
    apply keeps_bind; [apply info_panel_keeps | intros ?].
    apply keeps_ret.
Qed.

(** ** The choice of the highlighted location (C10) *)

Lemma mask_first {A : Type} (f : A -> bool) (pre post : list A) (x : A) :
  Forall (fun y => f y = false) pre -> f x = true ->
  List.filter f (pre ++ x :: post) = x :: List.filter f post.
Proof.
  intros Hpre Hx. rewrite List.filter_app, (mask_none f pre Hpre). simpl.
  now rewrite Hx.
Qed.

(** C10: with a non-empty term, the first row of the table that matches
    it is the one highlighted and the map is centred on it, whatever the
    location selector holds; when no row matches, nothing is highlighted
    and the default map is requested, again whatever the selector holds. *)
Theorem search_takes_precedence
    (re_other : string -> Py.res (string -> bool))
    (term : string) (sel : option string) (w : World)
    (matches : string -> bool) :
  Py.truthy term = true ->
  Re.compile re_other (Py.lower term) = Py.Ok matches ->
  let hit := fun row => matches (Py.lower (name row)) in
  (forall (pre : list Location) (first : Location) (post : list Location),
      w_locations w = (pre ++ first :: post)%list ->
      Forall (fun row => hit row = false) pre ->
      hit first = true ->
      select_highlight re_other term sel w
      = (Py.Ok (centred_on first), highlighting (Some (name first)) w)) /\
  (Forall (fun row => hit row = false) (w_locations w) ->
   select_highlight re_other term sel w
   = (Py.Ok default_args, highlighting None w)).
Proof.
  intros Htruthy Hcompile hit.
  unfold select_highlight. rewrite Htruthy.
  unfold mbind, Prog_bind, prog_bind, get_locations, lift, found_locations.
  rewrite Hcompile. simpl. fold hit. split.
  - intros pre first post Hlocs Hpre Hfirst.
    rewrite Hlocs, (mask_first hit pre post first Hpre Hfirst). reflexivity.
  - intros Hnone. rewrite (mask_none hit _ Hnone). reflexivity.
Qed.

Lemma search_takes_precedence_witness :
  select_highlight re_reject "BLOCK" (Some "Library") fresh_world
  = (Py.Ok {| center_lat := -0.3920; center_lon := 36.9638; zoom := 18;
              highlight_name := Some "Administration Block" |},
     highlighting (Some "Administration Block") fresh_world) /\
  select_highlight re_reject "gym" (Some "Library") fresh_world
  = (Py.Ok default_args, highlighting None fresh_world).
Proof.
  split.
  - apply (proj1 (search_takes_precedence re_reject "BLOCK" (Some "Library")
                    fresh_world (Re.search (literals "block"))
                    eq_refl eq_refl)
             [ {| name := "Main Gate"; latitude := -0.3918;
                  longitude := 36.9630; type := "Entry"; radius := 50 |};
               library ]
             {| name := "Administration Block"; latitude := -0.3920;
                longitude := 36.9638; type := "Administrative"; radius := 60 |}
             [ {| name := "Engineering Block"; latitude := -0.3928;
                  longitude := 36.9632; type := "Academic"; radius := 80 |};
               {| name := "Student Center"; latitude := -0.3922;
                  longitude := 36.9640; type := "Services"; radius := 65 |} ]).
    + reflexivity.
    + repeat constructor.
    + reflexivity.
  - apply (proj2 (search_takes_precedence re_reject "gym" (Some "Library")
                    fresh_world (Re.search (literals "gym"))
                    eq_refl eq_refl)).
    repeat constructor.
Defined.

(** With an empty term the selector decides. *)
Example selection_without_term :
  select_highlight re_reject "" (Some "Library") fresh_world
  = (Py.Ok (centred_on library), highlighting (Some "Library") fresh_world).
Proof. reflexivity. Qed.

Lemma create_map_raises (locs : list Location) (a : MapArgs) :
  create_map locs a
  = Py.Raise (Py.NameError
                (if existsb (is_highlighted (highlight_name a)) locs
                 then "DivIcon" else "Locate")).
Proof.
  unfold create_map, create_map_with. simpl.
  assert (H : forall m,
             returned
               (and_then (add_locations module_globals (highlight_name a) locs m)
                  (fun m1 => Aborted (Py.NameError "Locate")
                               (Folium.add_to draw_control m1)))
             = Py.Raise (Py.NameError
                           (if existsb (is_highlighted (highlight_name a)) locs
                            then "DivIcon" else "Locate"))).
  { intros m.
    pose proof (add_locations_module_globals (highlight_name a) locs m) as Hl.
    destruct (existsb (is_highlighted (highlight_name a)) locs).
    - destruct Hl as [m' ->]. reflexivity.
    - rewrite Hl. reflexivity. }
  destruct (Py.truthy_opt (highlight_name a)); simpl; apply H.
Qed.

(** Every run of [main] ends with an exception: whatever is chosen,
    [create_map] is called and raises before the page is laid out. *)
Lemma main_never_returns (re_other : string -> Py.res (string -> bool))
    (Inverse : Geopy.coords -> Geopy.coords -> Q) (i : Inputs) (w : World) :
  exists e, (main re_other Inverse i w).1 = Py.Raise e.
Proof.
  unfold main, mbind, Prog_bind, prog_bind.
  destruct (select_highlight re_other (search_term i) (selected_location i) w)
    as [[a|e] w1]; [|eexists; reflexivity].
  unfold run_create_map, get_locations, lift. simpl.
  rewrite create_map_raises. eexists. reflexivity.
Qed.

(** * Further properties of the script *)

(** ** The search box (lines 176-179) *)

Lemma mask_sublist_mono {A : Type} (f g : A -> bool) (l : list A) :
  (forall x, g x = true -> f x = true) ->
  List.filter g l `sublist_of` List.filter f l.
Proof.
  intros Hgf. induction l as [|x l IH]; simpl; [constructor|].
  destruct (g x) eqn:Hg.
  - rewrite (Hgf x Hg). apply sublist_skip, IH.
  - destruct (f x); [apply sublist_cons|]; exact IH.
Qed.

Lemma append_nil (s : string) : "" ++ s = s.
Proof. reflexivity. Qed.

Lemma append_cons (c : ascii) (s t : string) :
  String c s ++ t = String c (s ++ t).
Proof. reflexivity. Qed.

Lemma starts_with_spec (p s : string) :
  Py.starts_with p s = true <-> exists v, s = p ++ v.
Proof.
  revert s. induction p as [|a p IH]; intros s.
  - simpl. split; [intros _; exists s; reflexivity | reflexivity].
  - destruct s as [|b s]; simpl.
    + split; [discriminate | intros [v Hv]; discriminate].
    + rewrite andb_true_iff, IH. split.
      * intros [Hab [v ->]]. apply Ascii.eqb_eq in Hab. subst b. now exists v.
      * intros [v Hv]. rewrite append_cons in Hv. injection Hv as -> ->.
        split; [apply Ascii.eqb_refl | now exists v].
Qed.

Lemma contains_spec (p s : string) :
  Py.contains p s = true <-> exists u v, s = u ++ p ++ v.
Proof.
  induction s as [|b s IH]; simpl.
  - rewrite orb_false_r, starts_with_spec. split.
    + intros [v Hv]. exists "", v. exact Hv.
    + intros (u & v & H). destruct u as [|c u].
      * rewrite append_nil in H. now exists v.
      * rewrite append_cons in H. discriminate.
  - rewrite orb_true_iff, starts_with_spec, IH. split.
    + intros [[v Hv] | (u & v & ->)].
      * exists "", v. exact Hv.
      * exists (String b u), v. reflexivity.
    + intros (u & v & H). destruct u as [|c u].
      * rewrite append_nil in H. left. now exists v.
      * rewrite append_cons in H. right. injection H as -> ->. now exists u, v.
Qed.

Lemma append_assoc3 (a b c : string) : (a ++ b) ++ c = a ++ b ++ c.
Proof.
  induction a as [|x a IH]; [reflexivity|].
  rewrite !append_cons. f_equal. exact IH.
Qed.

Lemma contains_trans (a b s : string) :
  Py.contains a b = true -> Py.contains b s = true -> Py.contains a s = true.
Proof.
  rewrite !contains_spec. intros (u & v & ->) (u' & v' & ->).
  exists (u' ++ u), (v ++ v'). now rewrite !append_assoc3.
Qed.

Lemma leading_quantifier_lower (term : string) :
  Re.leading_quantifier (Py.lower term) = Re.leading_quantifier term.
Proof.
  destruct term as [|c term]; simpl; [reflexivity|].
  destruct c as [[] [] [] [] [] [] [] []]; reflexivity.
Qed.

Lemma found_locations_sublist (re_other : string -> Py.res (string -> bool))
    (locs found : list Location) (term : string) :
  found_locations re_other locs term = Py.Ok found -> found `sublist_of` locs.
Proof.
  unfold found_locations.
  destruct (Re.compile re_other (Py.lower term)) as [matches|e]; simpl;
    [|discriminate].
  intros [= <-]. apply mask_sublist.
Qed.

(** X1: the search does not look at the case of the term: two terms that
    agree once lower-cased give the same outcome, rows or exception. *)
Theorem search_ignores_case (re_other : string -> Py.res (string -> bool))
    (locs : list Location) (t1 t2 : string) :
  Py.lower t1 = Py.lower t2 ->
  search re_other locs t1 = search re_other locs t2.
Proof.
  intros H. unfold search, found_locations.
  rewrite <- (lower_truthy t1), <- (lower_truthy t2), H. reflexivity.
Qed.

Lemma search_ignores_case_witness :
  search re_reject locations "LIBRARY" = search re_reject locations "library".
Proof. apply search_ignores_case. reflexivity. Defined.

(** X2: whatever the term, the rows the search returns are rows of the
    table, each at most as often as in the table and in the table's order. *)
Theorem search_returns_sublist (re_other : string -> Py.res (string -> bool))
    (locs found : list Location) (term : string) :
  search re_other locs term = Some (Py.Ok found) -> found `sublist_of` locs.
Proof.
  unfold search. destruct (Py.truthy term); [|discriminate].
  intros [= H]. exact (found_locations_sublist re_other locs found term H).
Qed.

Lemma search_returns_sublist_witness :
  List.filter (name_contains "block") locations `sublist_of` locations.
Proof.
  apply (search_returns_sublist re_reject locations _ "Block"). reflexivity.
Defined.

(** X3: for a non-empty term that, lower-cased, has no regular-expression
    metacharacter, the search returns exactly the rows whose lower-cased
    name contains the lower-cased term, in table order. *)
Theorem search_plain_is_substring
    (re_other : string -> Py.res (string -> bool))
    (locs : list Location) (term : string) :
  Py.truthy term = true ->
  plain (Py.lower term) = true ->
  search re_other locs term
  = Some (Py.Ok (List.filter (name_contains term) locs)).
Proof.
  intros Ht Hp. unfold search. rewrite Ht. f_equal.
  exact (found_locations_plain re_other locs term Hp).
Qed.

Lemma search_plain_is_substring_witness :
  search re_reject locations "Block"
  = Some (Py.Ok (List.filter (name_contains "Block") locations)).
Proof. apply search_plain_is_substring; reflexivity. Defined.

(** X4: typing more never adds results.  For two non-empty terms without
    metacharacters, the longer containing the shorter once lower-cased, the
    rows found for the longer term are among those found for the shorter,
    in the same order. *)
Theorem search_longer_term_narrows
    (re_other : string -> Py.res (string -> bool))
    (locs : list Location) (short long : string) :
  Py.truthy short = true ->
  plain (Py.lower short) = true ->
  plain (Py.lower long) = true ->
  Py.contains (Py.lower short) (Py.lower long) = true ->
  exists found_short found_long,
    search re_other locs short = Some (Py.Ok found_short) /\
    search re_other locs long = Some (Py.Ok found_long) /\
    found_long `sublist_of` found_short.
Proof.
  intros Hshort Hps Hpl Hin.
  assert (Hlong : Py.truthy long = true).
  { rewrite <- lower_truthy. rewrite <- lower_truthy in Hshort.
    destruct (Py.lower long); [|reflexivity].
    destruct (Py.lower short); [discriminate Hshort | discriminate Hin]. }
  exists (List.filter (name_contains short) locs),
         (List.filter (name_contains long) locs).
  split; [|split].
  - unfold search. rewrite Hshort. f_equal. now apply found_locations_plain.
  - unfold search. rewrite Hlong. f_equal. now apply found_locations_plain.
  - apply mask_sublist_mono. intros row. unfold name_contains.
    apply contains_trans, Hin.
Qed.

Lemma search_longer_term_narrows_witness :
  exists found_short found_long,
    search re_reject locations "Block" = Some (Py.Ok found_short) /\
    search re_reject locations "Engineering Block" = Some (Py.Ok found_long) /\
    found_long `sublist_of` found_short.
Proof.
  apply search_longer_term_narrows; reflexivity.
Defined.

(** X5: in any directory, a location whose name is non-empty and free of
    metacharacters is found by a search for its own name, however the term
    is capitalised. *)
Theorem search_finds_own_name (re_other : string -> Py.res (string -> bool))
    (locs : list Location) (row : Location) (term : string) :
  row ∈ locs ->
  Py.truthy (name row) = true ->
  plain (Py.lower (name row)) = true ->
  Py.lower term = Py.lower (name row) ->
  exists found,
    search re_other locs term = Some (Py.Ok found) /\ row ∈ found.
Proof. exact (search_plain_name re_other locs row term). Qed.

Lemma search_finds_own_name_witness :
  exists found,
    search re_reject far_directory "OUTPOST" = Some (Py.Ok found) /\
    outpost ∈ found.
Proof.
  apply search_finds_own_name; try reflexivity. apply list_elem_of_here.
Defined.

(** X6: a term that begins with [*], [+] or [?] makes the run raise
    [re.error] before the highlight is chosen: no session state is written,
    so the highlight of the previous run stays recorded. *)
Theorem select_highlight_rejects_quantifier
    (re_other : string -> Py.res (string -> bool))
    (term : string) (sel : option string) (w : World) :
  Re.leading_quantifier term = true ->
  select_highlight re_other term sel w
  = (Py.Raise (Py.ReError "nothing to repeat at position 0"), w).
Proof.
  intros H. unfold select_highlight.
  assert (Ht : Py.truthy term = true) by (destruct term; [discriminate H | reflexivity]).
  rewrite Ht.
  unfold mbind, Prog_bind, prog_bind, get_locations, lift, found_locations,
    Re.compile.
  rewrite leading_quantifier_lower, H. reflexivity.
Qed.

Lemma select_highlight_rejects_quantifier_witness :
  select_highlight re_reject "?where" (Some "Library")
    (highlighting (Some "Main Gate") fresh_world)
  = (Py.Raise (Py.ReError "nothing to repeat at position 0"),
     highlighting (Some "Main Gate") fresh_world).
Proof. apply select_highlight_rejects_quantifier. reflexivity. Defined.

(** ** The choice of the highlight (lines 172-200) and the selectors
    (lines 153-170) *)

Lemma rows_named_spec (locs : list Location) (s : string) (row : Location) :
  row ∈ rows_named locs s <-> row ∈ locs /\ name row = s.
Proof. unfold rows_named. rewrite elem_of_mask, String.eqb_eq. reflexivity. Qed.

Lemma mask_nil_inv {A : Type} (f : A -> bool) (l : list A) :
  List.filter f l = [] -> Forall (fun x => f x = false) l.
Proof.
  induction l as [|x l IH]; simpl; [constructor|].
  destruct (f x) eqn:Hx; [discriminate|]. intros H. constructor; auto.
Qed.

Lemma filtered_locations_subset (locs : list Location) (t : string)
    (row : Location) :
  row ∈ filtered_locations locs t -> row ∈ locs.
Proof.
  unfold filtered_locations. destruct (negb (String.eqb t "All")); [|auto].
  intros H. apply elem_of_mask in H. tauto.
Qed.

Lemma found_locations_subset (re_other : string -> Py.res (string -> bool))
    (locs found : list Location) (term : string) (row : Location) :
  found_locations re_other locs term = Py.Ok found ->
  row ∈ found -> row ∈ locs.
Proof.
  unfold found_locations.
  destruct (Re.compile re_other (Py.lower term)) as [matches|e]; simpl;
    [|discriminate].
  intros [= <-] H. apply elem_of_mask in H. tauto.
Qed.

(** X7: with no search term, a selected name that no row of the table
    carries raises [IndexError] (line 195), and by then the session state
    has already recorded that name as the highlight (line 194). *)
Theorem selection_unknown_name (re_other : string -> Py.res (string -> bool))
    (s : string) (w : World) :
  Py.truthy s = true ->
  Forall (fun row => name row <> s) (w_locations w) ->
  select_highlight re_other "" (Some s) w
  = (Py.Raise Py.IndexError, highlighting (Some s) w).
Proof.
  intros Hs Hnone. unfold select_highlight. simpl. rewrite Hs.
  unfold mbind, Prog_bind, prog_bind, set_highlighted, get_locations, lift.
  simpl. unfold rows_named. rewrite mask_none; [reflexivity|].
  eapply Forall_impl; [exact Hnone|]. intros row Hrow.
  apply String.eqb_neq, Hrow.
Qed.

Lemma selection_unknown_name_witness :
  select_highlight re_reject "" (Some "Gym") fresh_world
  = (Py.Raise Py.IndexError, highlighting (Some "Gym") fresh_world).
Proof.
  apply selection_unknown_name; [reflexivity|].
  repeat constructor; discriminate.
Defined.

Lemma select_highlight_choice
    (re_other : string -> Py.res (string -> bool))
    (term : string) (sel : option string) (w w' : World) (a : MapArgs) :
  select_highlight re_other term sel w = (Py.Ok a, w') ->
  w' = highlighting (highlight_name a) w /\
  (a = default_args \/
   exists row, row ∈ w_locations w /\ a = centred_on row).
Proof.
  unfold select_highlight.
  unfold mbind, Prog_bind, prog_bind, set_highlighted, get_highlighted,
    get_locations, lift, mret, Prog_ret, prog_ret.
  destruct (Py.truthy term).
  - destruct (found_locations re_other (w_locations w) term)
      as [[|first rest]|e] eqn:Hfound; simpl.
    + intros [= <- <-]. split; [reflexivity | now left].
    + intros [= <- <-]. split; [reflexivity|]. right. exists first.
      split; [|reflexivity].
      apply (found_locations_subset re_other _ _ term first Hfound).
      apply list_elem_of_here.
    + discriminate.
  - destruct sel as [s|]; [destruct (Py.truthy s)|]; simpl.
    + destruct (rows_named (w_locations w) s) as [|loc rest] eqn:Hrows; simpl;
        [discriminate|].
      intros [= <- <-].
      assert (Hloc : loc ∈ rows_named (w_locations w) s)
        by (rewrite Hrows; apply list_elem_of_here).
      apply rows_named_spec in Hloc as [Hin Hname].
      split; [reflexivity|]. right. exists loc. split; [exact Hin|].
      unfold centred_on. now rewrite Hname.
    + intros [= <- <-]. split; [reflexivity | now left].
    + intros [= <- <-]. split; [reflexivity | now left].
Qed.

(** X8: whenever the choice completes, the session state records exactly
    the highlight name passed to [create_map], and the request is either
    the default one (default centre, zoom 17, no highlight) or centred with
    zoom 18 on a row of the table whose name is the highlight name. *)
Theorem select_highlight_request
    (re_other : string -> Py.res (string -> bool))
    (term : string) (sel : option string) (w w' : World) (a : MapArgs) :
  select_highlight re_other term sel w = (Py.Ok a, w') ->
  w' = highlighting (highlight_name a) w /\
  (a = default_args \/
   exists row, row ∈ w_locations w /\ a = centred_on row).
Proof. exact (select_highlight_choice re_other term sel w w' a). Qed.

Lemma select_highlight_request_witness :
  highlighting (Some "Main Gate") fresh_world
  = highlighting (highlight_name (centred_on main_gate)) fresh_world /\
  (centred_on main_gate = default_args \/
   exists row, row ∈ locations /\ centred_on main_gate = centred_on row).
Proof.
  apply (select_highlight_request re_reject "gate" None fresh_world).
  reflexivity.
Defined.

(** X9: the choice does not depend on what an earlier run left in the
    session state: from two stores with the same table the outcome is the
    same, and when the choice completes so is the store left behind. *)
Theorem select_highlight_forgets_session
    (re_other : string -> Py.res (string -> bool))
    (term : string) (sel : option string) (w1 w2 : World) :
  w_locations w1 = w_locations w2 ->
  (select_highlight re_other term sel w1).1
  = (select_highlight re_other term sel w2).1 /\
  (forall a, (select_highlight re_other term sel w1).1 = Py.Ok a ->
             (select_highlight re_other term sel w1).2
             = (select_highlight re_other term sel w2).2).
Proof.
  intros H. unfold select_highlight.
  unfold mbind, Prog_bind, prog_bind, set_highlighted, get_highlighted,
    get_locations, lift, mret, Prog_ret, prog_ret.
  destruct (Py.truthy term); simpl; rewrite <- ?H.
  - destruct (found_locations re_other (w_locations w1) term)
      as [[|first rest]|e]; simpl; rewrite <- ?H;
      (split; [reflexivity|]); intros a; [reflexivity | reflexivity | discriminate].
  - destruct sel as [s|]; [destruct (Py.truthy s)|]; simpl; rewrite <- ?H;
      split; reflexivity.
Qed.

Lemma select_highlight_forgets_session_witness :
  (select_highlight re_reject "lib" None fresh_world).1
  = (select_highlight re_reject "lib" None
       (highlighting (Some "Student Center") fresh_world)).1.
Proof.
  apply (select_highlight_forgets_session re_reject "lib" None fresh_world
           (highlighting (Some "Student Center") fresh_world)).
  reflexivity.
Defined.

(** X10: a name taken from the location selector is always found again:
    with no search term and widget values drawn from the options on offer,
    the choice completes (the lookup of line 195 cannot raise) and records
    the highlight it passes on. *)
Theorem offered_selection_is_found
    (re_other : string -> Py.res (string -> bool)) (i : Inputs) (w : World) :
  offered (w_locations w) i ->
  search_term i = "" ->
  exists a,
    select_highlight re_other (search_term i) (selected_location i) w
    = (Py.Ok a, highlighting (highlight_name a) w).
Proof.
  intros [_ Hsel] ->. unfold select_highlight. simpl.
  unfold mbind, Prog_bind, prog_bind, set_highlighted, get_highlighted,
    get_locations, lift, mret, Prog_ret, prog_ret.
  destruct (selected_location i) as [s|]; [|exists default_args; reflexivity].
  destruct (Py.truthy s); [|exists default_args; reflexivity]. simpl.
  unfold location_options in Hsel.
  apply list_elem_of_fmap in Hsel as (row & -> & Hrow).
  apply filtered_locations_subset in Hrow.
  destruct (rows_named (w_locations w) (name row)) as [|loc rest] eqn:Hrows.
  - exfalso. apply mask_nil_inv in Hrows. rewrite Forall_forall in Hrows.
    specialize (Hrows row Hrow). simpl in Hrows.
    rewrite String.eqb_refl in Hrows. discriminate.
  - simpl.
    exists {| center_lat := latitude loc; center_lon := longitude loc;
              zoom := 18; highlight_name := Some (name row) |}.
    reflexivity.
Qed.

Lemma offered_selection_is_found_witness :
  exists a,
    select_highlight re_reject "" (Some "Engineering Block") fresh_world
    = (Py.Ok a, highlighting (highlight_name a) fresh_world).
Proof.
  apply (offered_selection_is_found re_reject
           {| search_term := ""; selected_type := "Academic";
              selected_location := Some "Engineering Block" |} fresh_world).
  - split.
    + simpl. apply list_elem_of_further, list_elem_of_further, list_elem_of_here.
    + simpl. apply list_elem_of_further, list_elem_of_here.
  - reflexivity.
Defined.

(** X11: on a non-empty table every option of the type selector, "All"
    included, leaves at least one name in the location selector. *)
Theorem type_option_offers_location (locs : list Location) (t : string) :
  locs <> [] ->
  t ∈ type_options locs ->
  location_options locs t <> [].
Proof.
  intros Hne Ht. unfold location_options, filtered_locations.
  destruct (String.eqb_spec t "All") as [->|Hall]; simpl.
  - destruct locs; [contradiction | discriminate].
  - unfold type_options in Ht. apply elem_of_cons in Ht as [->|Ht];
      [contradiction|].
    apply elem_of_unique, list_elem_of_fmap in Ht as (row & -> & Hrow).
    assert (H : row ∈ List.filter
                  (fun r => String.eqb (type r) (type row)) locs).
    { apply elem_of_mask. split; [exact Hrow | apply String.eqb_refl]. }
    destruct (List.filter _ locs); [inversion H | discriminate].
Qed.

Lemma type_option_offers_location_witness :
  location_options locations "Services" <> [].
Proof.
  apply type_option_offers_location; [discriminate|].
  unfold type_options. simpl.
  do 4 apply list_elem_of_further. apply list_elem_of_here.
Defined.

(** ** The distance list and the information panel (lines 209-233) *)

Lemma Point_raise (c : Geopy.coords) (e : Py.exn) :
  Geopy.Point c = Py.Raise e -> e = latitude_error.
Proof.
  destruct c as [lat lon]. unfold Geopy.Point.
  destruct (Py.Qlt_bool 90 (Qabs lat)); [now intros [= <-]|].
  destruct (Py.Qlt_bool 180 (Qabs lon)); discriminate.
Qed.

Lemma geodesic_meters_raise (Inverse : Geopy.coords -> Geopy.coords -> Q)
    (a b : Geopy.coords) (e : Py.exn) :
  Geopy.geodesic_meters Inverse a b = Py.Raise e -> e = latitude_error.
Proof.
  unfold Geopy.geodesic_meters.
  destruct (Geopy.Point a) as [pa|ea] eqn:Ha; simpl.
  - destruct (Geopy.Point b) as [pb|eb] eqn:Hb; simpl; [discriminate|].
    intros [= <-]. exact (Point_raise b eb Hb).
  - intros [= <-]. exact (Point_raise a ea Ha).
Qed.

Lemma measure_raise (Inverse : Geopy.coords -> Geopy.coords -> Q)
    (sel : string) (c : Geopy.coords) (rows : list Location) (e : Py.exn) :
  measure Inverse sel c rows = Py.Raise e -> e = latitude_error.
Proof.
  induction rows as [|row rows IH]; simpl; [discriminate|].
  destruct (negb (String.eqb (name row) sel)); [|exact IH].
  destruct (Geopy.geodesic_meters Inverse c (row_coords row)) as [d|e']
    eqn:Hd; simpl.
  - destruct (measure Inverse sel c rows) as [more|e'']; simpl; [discriminate|].
    intros [= <-]. now apply IH.
  - intros [= <-]. exact (geodesic_meters_raise Inverse _ _ _ Hd).
Qed.

Lemma measure_entries (Inverse : Geopy.coords -> Geopy.coords -> Q)
    (sel : string) (c : Geopy.coords) (rows : list Location)
    (ds : list (Location * Q)) :
  measure Inverse sel c rows = Py.Ok ds ->
  map fst ds = List.filter (other_than sel) rows.
Proof.
  revert ds. induction rows as [|row rows IH]; simpl; intros ds.
  - now intros [= <-].
  - fold (other_than sel row). destruct (other_than sel row); [|apply IH].
    destruct (Geopy.geodesic_meters Inverse c (row_coords row)) as [d|e];
      simpl; [|discriminate].
    destruct (measure Inverse sel c rows) as [more|e]; simpl; [|discriminate].
    intros [= <-]. simpl. f_equal. now apply IH.
Qed.

Lemma mask_complement_length {A : Type} (f : A -> bool) (l : list A) :
  length (List.filter f l) + length (List.filter (fun x => negb (f x)) l)
  = length l.
Proof.
  induction l as [|x l IH]; simpl; [reflexivity|].
  destruct (f x); simpl; lia.
Qed.

(** X12: the distance query raises [IndexError] exactly when no row of
    the table carries the selected name; when a row carries it, the only
    exception the query can raise is the [ValueError] of geopy's [Point]. *)
Theorem distancesFrom_unknown_name
    (Inverse : Geopy.coords -> Geopy.coords -> Q)
    (locs : list Location) (sel : string) :
  (distancesFrom Inverse locs sel = Py.Raise Py.IndexError <->
   Forall (fun row => name row <> sel) locs) /\
  (forall e,
      Exists (fun row => name row = sel) locs ->
      distancesFrom Inverse locs sel = Py.Raise e ->
      e = Py.ValueError "Latitude must be in the [-90; 90] range.").
Proof.
  assert (Hnone : Forall (fun row => name row <> sel) locs ->
                  rows_named locs sel = []).
  { intros H. unfold rows_named. apply mask_none.
    eapply Forall_impl; [exact H|]. intros row Hrow.
    apply String.eqb_neq, Hrow. }
  unfold distancesFrom. split; [split|].
  - destruct (rows_named locs sel) as [|loc rest] eqn:Hrows; simpl.
    + intros _. apply mask_nil_inv in Hrows.
      eapply Forall_impl; [exact Hrows|]. intros row Hrow.
      apply String.eqb_neq, Hrow.
    + intros H. apply measure_raise in H. discriminate.
  - intros H. rewrite (Hnone H). reflexivity.
  - intros e Hsome.
    destruct (rows_named locs sel) as [|loc rest] eqn:Hrows; simpl.
    + exfalso. apply mask_nil_inv in Hrows.
      apply Exists_exists in Hsome as (row & Hrow & Hname).
      rewrite Forall_forall in Hrows. specialize (Hrows row Hrow).
      simpl in Hrows. apply String.eqb_neq in Hrows. contradiction.
    + intros H. exact (measure_raise Inverse _ _ _ e H).
Qed.

Lemma distancesFrom_unknown_name_witness :
  distancesFrom taxicab locations "Gym" = Py.Raise Py.IndexError /\
  distancesFrom taxicab [library; beyond_pole] "Library"
  = Py.Raise (Py.ValueError "Latitude must be in the [-90; 90] range.").
Proof.
  split.
  - apply (proj1 (distancesFrom_unknown_name taxicab locations "Gym")).
    repeat constructor; discriminate.
  - reflexivity.
Defined.

(** X13: without assuming unique names: when the distance query returns,
    its entries are the rows whose name differs from the selected one, in
    table order, so every row sharing the selected name is left out and
    the entries and those rows together make up the table. *)
Theorem distancesFrom_entries (Inverse : Geopy.coords -> Geopy.coords -> Q)
    (locs : list Location) (sel : string) (ds : list (Location * Q)) :
  distancesFrom Inverse locs sel = Py.Ok ds ->
  map fst ds = List.filter (other_than sel) locs /\
  Forall (fun entry => name entry.1 <> sel) ds /\
  length ds + length (rows_named locs sel) = length locs.
Proof.
  unfold distancesFrom.
  destruct (iloc0 (rows_named locs sel)) as [loc|e]; simpl; [|discriminate].
  intros H. apply measure_entries in H.
  split; [exact H|]. split.
  - apply Forall_forall. intros entry Hentry.
    assert (Hin : entry.1 ∈ map fst ds) by (apply list_elem_of_fmap; eauto).
    rewrite H in Hin. apply elem_of_mask in Hin as [_ Hin].
    unfold other_than in Hin. now apply negb_true_iff, String.eqb_neq in Hin.
  - rewrite <- (length_map fst ds), H. unfold rows_named, other_than.
    rewrite Nat.add_comm. apply mask_complement_length.
Qed.

Lemma distancesFrom_entries_witness :
  map fst [(library, taxicab (row_coords main_gate) (row_coords library))]
  = List.filter (other_than "Main Gate") [main_gate; library; main_gate] /\
  Forall (fun entry => name entry.1 <> "Main Gate")
    [(library, taxicab (row_coords main_gate) (row_coords library))] /\
  1 + length (rows_named [main_gate; library; main_gate] "Main Gate") = 3.
Proof.
  apply (distancesFrom_entries taxicab [main_gate; library; main_gate]
           "Main Gate"
           [(library, taxicab (row_coords main_gate) (row_coords library))]).
  reflexivity.
Defined.

Lemma distance_rows_names (ds : list (Location * Q)) :
  map location (distance_rows ds) = map name (map fst ds).
Proof.
  unfold distance_rows. rewrite !map_map. apply map_ext. now intros [row d].
Qed.

(** X14: for a selected name carried by a row of a table whose latitudes
    are in range, the panel shows the first row of that name (its name,
    type and coordinates) and a distance table with one line per row of
    another name, in table order, under that row's name; the store is
    left as it was. *)
Theorem info_panel_shows_selected
    (Inverse : Geopy.coords -> Geopy.coords -> Q)
    (sel : string) (w : World) (loc : Location) (rest : list Location) :
  Py.truthy sel = true ->
  rows_named (w_locations w) sel = loc :: rest ->
  Forall lat_ok (w_locations w) ->
  exists df,
    info_panel Inverse (Some sel) w
    = (Py.Ok (Some {| panel_name := name loc;
                      panel_type := type loc;
                      panel_coords := row_coords loc;
                      distance_df := df |}), w) /\
    name loc = sel /\
    map location df
    = map name (List.filter (other_than sel) (w_locations w)).
Proof.
  intros Hsel Hrows Hlat.
  assert (Hloc : loc ∈ rows_named (w_locations w) sel)
    by (rewrite Hrows; apply list_elem_of_here).
  apply rows_named_spec in Hloc as [Hin Hname].
  unfold info_panel. rewrite Hsel.
  unfold mbind, Prog_bind, prog_bind, get_locations, lift, mret, Prog_ret,
    prog_ret.
  rewrite Hrows. simpl.
  rewrite measure_ok.
  - eexists. split; [reflexivity|]. split; [exact Hname|].
    rewrite distance_rows_names. f_equal. rewrite map_map. apply map_id.
  - rewrite Forall_forall in Hlat. exact (Hlat loc Hin).
  - apply mask_Forall, Hlat.
Qed.

Lemma info_panel_shows_selected_witness :
  exists df,
    info_panel taxicab (Some "Library") fresh_world
    = (Py.Ok (Some {| panel_name := "Library";
                      panel_type := "Academic";
                      panel_coords := (-0.3925, 36.9635)%Q;
                      distance_df := df |}), fresh_world) /\
    "Library" = "Library" /\
    map location df
    = ["Main Gate"; "Administration Block"; "Engineering Block";
       "Student Center"].
Proof.
  apply (info_panel_shows_selected taxicab "Library" fresh_world library
           []).
  - reflexivity.
  - reflexivity.
  - exact locations_lat_ok.
Defined.

Lemma round_half_even_close (x : Q) :
  (Qabs (x - inject_Z (round_half_even x)) <= 1 # 2)%Q.
Proof.
  pose proof (Qfloor_le x) as Hlo. pose proof (Qlt_floor x) as Hhi.
  rewrite inject_Z_plus in Hhi. change (inject_Z 1) with 1%Q in Hhi.
  unfold round_half_even. apply Qabs_Qle_condition.
  destruct (Qcompare (x - inject_Z (Qfloor x)) (1 # 2)) eqn:Hc.
  - apply Qeq_alt in Hc. destruct (Z.even (Qfloor x)).
    + split; lra.
    + rewrite inject_Z_plus. change (inject_Z 1) with 1%Q. split; lra.
  - apply Qlt_alt in Hc. split; lra.
  - apply Qgt_alt in Hc. rewrite inject_Z_plus.
    change (inject_Z 1) with 1%Q. split; lra.
Qed.

Lemma round_half_even_nonneg (x : Q) :
  (0 <= x)%Q -> (0 <= round_half_even x)%Z.
Proof.
  intros Hx. assert (Hf : (0 <= Qfloor x)%Z).
  { change 0%Z with (Qfloor 0). now apply Qfloor_resp_le. }
  unfold round_half_even.
  destruct (Qcompare (x - inject_Z (Qfloor x)) (1 # 2));
    [destruct (Z.even (Qfloor x))| |]; lia.
Qed.

(** X15: each line of the distance table carries the name of its row and,
    for a non-negative distance, the text [n meters] where [n] is a
    non-negative integer within half a metre of the distance. *)
Theorem distance_rows_rounded (ds : list (Location * Q)) :
  Forall (fun entry => (0 <= entry.2)%Q) ds ->
  Forall2 (fun entry line =>
             location line = name entry.1 /\
             exists n : Z,
               (0 <= n)%Z /\
               distance line
               = NilZero.string_of_int (Z.to_int n) ++ " meters" /\
               (Qabs (entry.2 - inject_Z n) <= 1 # 2)%Q)
          ds (distance_rows ds).
Proof.
  induction 1 as [|[row d] ds Hd _ IH]; simpl; constructor; [|exact IH].
  simpl in Hd. split; [reflexivity|].
  exists (round_half_even d). split; [|split].
  - now apply round_half_even_nonneg.
  - unfold format_0f. rewrite (Qlt_bool_false d 0 Hd), andb_false_r.
    reflexivity.
  - apply round_half_even_close.
Qed.

Lemma distance_rows_rounded_witness :
  distance_rows [(library, 95.336%Q); (main_gate, 0.5%Q)]
  = [{| location := "Library"; distance := "95 meters" |};
     {| location := "Main Gate"; distance := "0 meters" |}] /\
  Forall2 (fun entry line =>
             location line = name entry.1 /\
             exists n : Z,
               (0 <= n)%Z /\
               distance line
               = NilZero.string_of_int (Z.to_int n) ++ " meters" /\
               (Qabs (entry.2 - inject_Z n) <= 1 # 2)%Q)
          [(library, 95.336%Q); (main_gate, 0.5%Q)]
          (distance_rows [(library, 95.336%Q); (main_gate, 0.5%Q)]).
Proof.
  split; [reflexivity|].
  apply distance_rows_rounded. repeat constructor; discriminate.
Defined.

(** ** A whole run (lines 134-233) *)

Lemma highlighted_exists (locs : list Location) (a : MapArgs) :
  a = default_args \/ (exists row, row ∈ locs /\ a = centred_on row) ->
  existsb (is_highlighted (highlight_name a)) locs
  = Py.truthy_opt (highlight_name a).
Proof.
  intros [->|(row & Hrow & ->)]; simpl.
  - induction locs as [|r locs IH]; simpl; [reflexivity | exact IH].
  - destruct (Py.truthy (name row)) eqn:Hname.
    + apply existsb_exists. exists row. split; [now apply list_elem_of_In|].
      unfold is_highlighted. now rewrite Hname, String.eqb_refl.
    + apply not_true_is_false. intros H.
      apply existsb_exists in H as (r & _ & Hr).
      unfold is_highlighted in Hr. rewrite Hname in Hr. discriminate.
Qed.

(** X16: a run of [main] writes to the store only what the choice of the
    highlight writes, and never lays out the page: it ends with the
    exception of the choice if that raised, and otherwise with the
    [NameError] of [create_map], on [DivIcon] when a location is
    highlighted and on [Locate] when none is. *)
Theorem main_outcome (re_other : string -> Py.res (string -> bool))
    (Inverse : Geopy.coords -> Geopy.coords -> Q) (i : Inputs) (w : World) :
  (main re_other Inverse i w).2
  = (select_highlight re_other (search_term i) (selected_location i) w).2 /\
  (main re_other Inverse i w).1
  = match (select_highlight re_other (search_term i)
                            (selected_location i) w).1 with
    | Py.Raise e => Py.Raise e
    | Py.Ok a =>
        Py.Raise (Py.NameError (if Py.truthy_opt (highlight_name a)
                                then "DivIcon" else "Locate"))
    end.
Proof.
  unfold main, mbind, Prog_bind, prog_bind.
  destruct (select_highlight re_other (search_term i) (selected_location i) w)
    as [[a|e] w1] eqn:Hsh; [|split; reflexivity].
  apply select_highlight_choice in Hsh as [-> Ha].
  unfold run_create_map, get_locations, lift. simpl.
  rewrite create_map_raises, (highlighted_exists _ a Ha). split; reflexivity.
Qed.
